(** * The [FromStr] implementors registry loader

    A shallow embedding of
    [doc/implementors/core/str/traits/trait.FromStr.js], the script rustdoc
    emits for the page of trait [core::str::FromStr]:

    - line 1 opens an immediately-invoked function and binds the local
      [implementors] to a fresh empty object;
    - lines 2 to 42 assign, one statement per crate, an array literal of
      implementor records to a property of that object;
    - line 43 tests [window.register_implementors]; when truthy it calls it
      with the object, otherwise it stores the object into
      [window.pending_implementors].

    The spec calls this immediately-invoked function [publish()].

    The embedding covers what the script itself does.  The global object is
    taken to exist and its properties to be plain writable data properties;
    what a function found in the callback slot does when called belongs to
    the host page and is a parameter of the development. *)

From Stdlib Require Import ZArith SpecFloat.
From stdpp Require Import base option list strings gmap fin_maps.
From stdpp Require Import sorting.

Set Warnings "-register-all".

(** ** JavaScript values *)

(** Function objects are opaque to the script: it can only test one for
    truthiness and call it.  A function value is therefore a handle, and what
    the call does is supplied by the host (see [host_behaviour] below). *)
Definition fn_id := nat.

(** The language types of ECMAScript.  Numbers are IEEE 754 doubles, written
    with the Standard Library's [spec_float]; arrays and plain objects are
    kept apart because the script builds both kinds of literal.  An object is
    its list of own data properties in insertion order.  Objects stand for
    their content: each run builds its object afresh and hands it over
    without reading it again, so object identity plays no part. *)
Inductive value :=
  | VUndefined
  | VNull
  | VBool (b : bool)
  | VNum (x : spec_float)
  | VBigInt (n : Z)
  | VStr (s : string)
  | VSymbol (description : string)
  | VArr (elements : list value)
  | VObj (props : list (string * value))
  | VFun (f : fn_id).

Abbreviation object := (list (string * value)).

(** ECMAScript [ToBoolean], the test an [if] statement applies. *)
Definition to_boolean (v : value) : bool :=
  match v with
  | VUndefined | VNull => false
  | VBool b => b
  | VNum (S754_zero _) | VNum S754_nan => false
  | VNum _ => true
  | VBigInt n => negb (n =? 0)%Z
  | VStr s => negb (String.eqb s "")
  | VSymbol _ | VArr _ | VObj _ | VFun _ => true
  end.

(** [o[k]]: reading an own property. *)
Fixpoint obj_get (k : string) (o : object) : option value :=
  match o with
  | [] => None
  | (k', v) :: o' => if String.eqb k k' then Some v else obj_get k o'
  end.

(** [o[k] = v]: an existing property keeps its place and takes the new value,
    a new property is added after the others. *)
Fixpoint obj_set (k : string) (v : value) (o : object) : object :=
  match o with
  | [] => [(k, v)]
  | (k', v') :: o' =>
      if String.eqb k k' then (k, v) :: o' else (k', v') :: obj_set k v o'
  end.

Definition obj_keys (o : object) : list string := o.*1.

(** ** The data of lines 2 to 42 *)

(** The double quote character (code 34), which the source writes escaped
    with a backslash inside its string literals. *)
Definition dq : string := String (Ascii.ascii_of_nat 34) EmptyString.

(** [js parts] is the string whose pieces between consecutive double quotes
    are [parts]: a source literal made of [<a class=], an escaped quote,
    [trait], an escaped quote and [>] is [js ["<a class="; "trait"; ">"]]. *)
Definition js (parts : list string) : string := String.concat dq parts.

(** The assignment statements [implementors[k] = [...];] in source order: the
    property name and the array literal on the right-hand side. *)
Definition assignments : list (string * value) := [
  (* line 2 *)
  ("arrayvec", VArr [
    VObj [
    ("text", VStr (js [
      "impl&lt;A&gt; <a class="; "trait"; " href=";
      "https://doc.rust-lang.org/1.58.0/core/str/traits/trait.FromStr.html"; " title=";
      "trait core::str::traits::FromStr"; ">FromStr</a> for <a class="; "struct"; " href=";
      "arrayvec/struct.ArrayString.html"; " title="; "struct arrayvec::ArrayString";
      ">ArrayString</a>&lt;A&gt; <span class="; "where fmt-newline";
      ">where<br>&nbsp;&nbsp;&nbsp;&nbsp;A: <a class="; "trait"; " href=";
      "arrayvec/trait.Array.html"; " title="; "trait arrayvec::Array";
      ">Array</a>&lt;Item = <a class="; "primitive"; " href=";
      "https://doc.rust-lang.org/1.58.0/core/primitive.u8.html"; ">u8</a>&gt; + <a class=";
      "trait"; " href="; "https://doc.rust-lang.org/1.58.0/core/marker/trait.Copy.html";
      " title="; "trait core::marker::Copy"; ">Copy</a>,&nbsp;</span>"]));
    ("synthetic", VBool false);
    ("types", VArr [VStr "arrayvec::array_string::ArrayString"])]]);
  (* line 3 *)
  ("ascii", VArr [
    VObj [
    ("text", VStr (js [
      "impl <a class="; "trait"; " href=";
      "https://doc.rust-lang.org/1.58.0/core/str/traits/trait.FromStr.html"; " title=";
      "trait core::str::traits::FromStr"; ">FromStr</a> for <a class="; "struct"; " href=";
      "ascii/struct.AsciiString.html"; " title="; "struct ascii::AsciiString";
      ">AsciiString</a>"]));
    ("synthetic", VBool false);
    ("types", VArr [VStr "ascii::ascii_string::AsciiString"])]]);
  (* line 4 *)
  ("async_std", VArr [
    VObj [
    ("text", VStr (js [
      "impl <a class="; "trait"; " href=";
      "https://doc.rust-lang.org/1.58.0/core/str/traits/trait.FromStr.html"; " title=";
      "trait core::str::traits::FromStr"; ">FromStr</a> for <a class="; "struct"; " href=";
      "async_std/path/struct.PathBuf.html"; " title="; "struct async_std::path::PathBuf";
      ">PathBuf</a>"]));
    ("synthetic", VBool false);
    ("types", VArr [VStr "async_std::path::pathbuf::PathBuf"])]]);
  (* line 5 *)
  ("bigdecimal", VArr [
    VObj [
    ("text", VStr (js [
      "impl <a class="; "trait"; " href=";
      "https://doc.rust-lang.org/1.58.0/core/str/traits/trait.FromStr.html"; " title=";
      "trait core::str::traits::FromStr"; ">FromStr</a> for <a class="; "struct"; " href=";
      "bigdecimal/struct.BigDecimal.html"; " title="; "struct bigdecimal::BigDecimal";
      ">BigDecimal</a>"]));
    ("synthetic", VBool false);
    ("types", VArr [VStr "bigdecimal::BigDecimal"])]]);
  (* line 6 *)
  ("bson", VArr [
    VObj [
    ("text", VStr (js [
      "impl <a class="; "trait"; " href=";
      "https://doc.rust-lang.org/1.58.0/core/str/traits/trait.FromStr.html"; " title=";
      "trait core::str::traits::FromStr"; ">FromStr</a> for <a class="; "struct"; " href=";
      "bson/oid/struct.ObjectId.html"; " title="; "struct bson::oid::ObjectId"; ">ObjectId</a>"]));
    ("synthetic", VBool false);
    ("types", VArr [VStr "bson::oid::ObjectId"])]]);
  (* line 7 *)
  ("chrono", VArr [
    VObj [
    ("text", VStr (js [
      "impl <a class="; "trait"; " href=";
      "https://doc.rust-lang.org/1.58.0/core/str/traits/trait.FromStr.html"; " title=";
      "trait core::str::traits::FromStr"; ">FromStr</a> for <a class="; "struct"; " href=";
      "chrono/naive/struct.NaiveDate.html"; " title="; "struct chrono::naive::NaiveDate";
      ">NaiveDate</a>"]));
    ("synthetic", VBool false);
    ("types", VArr [VStr "chrono::naive::date::NaiveDate"])];
    VObj [
    ("text", VStr (js [
      "impl <a class="; "trait"; " href=";
      "https://doc.rust-lang.org/1.58.0/core/str/traits/trait.FromStr.html"; " title=";
      "trait core::str::traits::FromStr"; ">FromStr</a> for <a class="; "struct"; " href=";
      "chrono/naive/struct.NaiveDateTime.html"; " title=";
      "struct chrono::naive::NaiveDateTime"; ">NaiveDateTime</a>"]));
    ("synthetic", VBool false);
    ("types", VArr [VStr "chrono::naive::datetime::NaiveDateTime"])];
    VObj [
    ("text", VStr (js [
      "impl <a class="; "trait"; " href=";
      "https://doc.rust-lang.org/1.58.0/core/str/traits/trait.FromStr.html"; " title=";
      "trait core::str::traits::FromStr"; ">FromStr</a> for <a class="; "struct"; " href=";
      "chrono/naive/struct.NaiveTime.html"; " title="; "struct chrono::naive::NaiveTime";
      ">NaiveTime</a>"]));
    ("synthetic", VBool false);
    ("types", VArr [VStr "chrono::naive::time::NaiveTime"])];
    VObj [
    ("text", VStr (js [
      "impl <a class="; "trait"; " href=";
      "https://doc.rust-lang.org/1.58.0/core/str/traits/trait.FromStr.html"; " title=";
      "trait core::str::traits::FromStr"; ">FromStr</a> for <a class="; "struct"; " href=";
      "chrono/struct.DateTime.html"; " title="; "struct chrono::DateTime";
      ">DateTime</a>&lt;<a class="; "struct"; " href="; "chrono/offset/struct.Utc.html";
      " title="; "struct chrono::offset::Utc"; ">Utc</a>&gt;"]));
    ("synthetic", VBool false);
    ("types", VArr [VStr "chrono::datetime::DateTime"])];
    VObj [
    ("text", VStr (js [
      "impl <a class="; "trait"; " href=";
      "https://doc.rust-lang.org/1.58.0/core/str/traits/trait.FromStr.html"; " title=";
      "trait core::str::traits::FromStr"; ">FromStr</a> for <a class="; "struct"; " href=";
      "chrono/struct.DateTime.html"; " title="; "struct chrono::DateTime";
      ">DateTime</a>&lt;<a class="; "struct"; " href="; "chrono/offset/struct.Local.html";
      " title="; "struct chrono::offset::Local"; ">Local</a>&gt;"]));
    ("synthetic", VBool false);
    ("types", VArr [VStr "chrono::datetime::DateTime"])];
    VObj [
    ("text", VStr (js [
      "impl <a class="; "trait"; " href=";
      "https://doc.rust-lang.org/1.58.0/core/str/traits/trait.FromStr.html"; " title=";
      "trait core::str::traits::FromStr"; ">FromStr</a> for <a class="; "struct"; " href=";
      "chrono/struct.DateTime.html"; " title="; "struct chrono::DateTime";
      ">DateTime</a>&lt;<a class="; "struct"; " href=";
      "chrono/offset/struct.FixedOffset.html"; " title="; "struct chrono::offset::FixedOffset";
      ">FixedOffset</a>&gt;"]));
    ("synthetic", VBool false);
    ("types", VArr [VStr "chrono::datetime::DateTime"])];
    VObj [
    ("text", VStr (js [
      "impl <a class="; "trait"; " href=";
      "https://doc.rust-lang.org/1.58.0/core/str/traits/trait.FromStr.html"; " title=";
      "trait core::str::traits::FromStr"; ">FromStr</a> for <a class="; "enum"; " href=";
      "chrono/enum.Weekday.html"; " title="; "enum chrono::Weekday"; ">Weekday</a>"]));
    ("synthetic", VBool false);
    ("types", VArr [VStr "chrono::Weekday"])];
    VObj [
    ("text", VStr (js [
      "impl <a class="; "trait"; " href=";
      "https://doc.rust-lang.org/1.58.0/core/str/traits/trait.FromStr.html"; " title=";
      "trait core::str::traits::FromStr"; ">FromStr</a> for <a class="; "enum"; " href=";
      "chrono/enum.Month.html"; " title="; "enum chrono::Month"; ">Month</a>"]));
    ("synthetic", VBool false);
    ("types", VArr [VStr "chrono::Month"])]]);
  (* line 8 *)
  ("clap", VArr [
    VObj [
    ("text", VStr (js [
      "impl <a class="; "trait"; " href=";
      "https://doc.rust-lang.org/1.58.0/core/str/traits/trait.FromStr.html"; " title=";
      "trait core::str::traits::FromStr"; ">FromStr</a> for <a class="; "enum"; " href=";
      "clap/enum.AppSettings.html"; " title="; "enum clap::AppSettings"; ">AppSettings</a>"]));
    ("synthetic", VBool false);
    ("types", VArr [VStr "clap::app::settings::AppSettings"])];
    VObj [
    ("text", VStr (js [
      "impl <a class="; "trait"; " href=";
      "https://doc.rust-lang.org/1.58.0/core/str/traits/trait.FromStr.html"; " title=";
      "trait core::str::traits::FromStr"; ">FromStr</a> for <a class="; "enum"; " href=";
      "clap/enum.ArgSettings.html"; " title="; "enum clap::ArgSettings"; ">ArgSettings</a>"]));
    ("synthetic", VBool false);
    ("types", VArr [VStr "clap::args::settings::ArgSettings"])];
    VObj [
    ("text", VStr (js [
      "impl <a class="; "trait"; " href=";
      "https://doc.rust-lang.org/1.58.0/core/str/traits/trait.FromStr.html"; " title=";
      "trait core::str::traits::FromStr"; ">FromStr</a> for <a class="; "enum"; " href=";
      "clap/enum.Shell.html"; " title="; "enum clap::Shell"; ">Shell</a>"]));
    ("synthetic", VBool false);
    ("types", VArr [VStr "clap::completions::shell::Shell"])]]);
  (* line 9 *)
  ("colored", VArr [
    VObj [
    ("text", VStr (js [
      "impl <a class="; "trait"; " href=";
      "https://doc.rust-lang.org/1.58.0/core/str/traits/trait.FromStr.html"; " title=";
      "trait core::str::traits::FromStr"; ">FromStr</a> for <a class="; "enum"; " href=";
      "colored/enum.Color.html"; " title="; "enum colored::Color"; ">Color</a>"]));
    ("synthetic", VBool false);
    ("types", VArr [VStr "colored::color::Color"])]]);
  (* line 10 *)
  ("connection_string", VArr [
    VObj [
    ("text", VStr (js [
      "impl <a class="; "trait"; " href=";
      "https://doc.rust-lang.org/1.58.0/core/str/traits/trait.FromStr.html"; " title=";
      "trait core::str::traits::FromStr"; ">FromStr</a> for <a class="; "struct"; " href=";
      "connection_string/struct.AdoNetString.html"; " title=";
      "struct connection_string::AdoNetString"; ">AdoNetString</a>"]));
    ("synthetic", VBool false);
    ("types", VArr [VStr "connection_string::ado::AdoNetString"])];
    VObj [
    ("text", VStr (js [
      "impl <a class="; "trait"; " href=";
      "https://doc.rust-lang.org/1.58.0/core/str/traits/trait.FromStr.html"; " title=";
      "trait core::str::traits::FromStr"; ">FromStr</a> for <a class="; "struct"; " href=";
      "connection_string/struct.JdbcString.html"; " title=";
      "struct connection_string::JdbcString"; ">JdbcString</a>"]));
    ("synthetic", VBool false);
    ("types", VArr [VStr "connection_string::jdbc::JdbcString"])]]);
  (* line 11 *)
  ("cookie", VArr [
    VObj [
    ("text", VStr (js [
      "impl <a class="; "trait"; " href=";
      "https://doc.rust-lang.org/1.58.0/core/str/traits/trait.FromStr.html"; " title=";
      "trait core::str::traits::FromStr"; ">FromStr</a> for <a class="; "struct"; " href=";
      "cookie/struct.Cookie.html"; " title="; "struct cookie::Cookie";
      ">Cookie</a>&lt;'static&gt;"]));
    ("synthetic", VBool false);
    ("types", VArr [VStr "cookie::Cookie"])]]);
  (* line 12 *)
  ("datamodel_connector", VArr [
    VObj [
    ("text", VStr (js [
      "impl <a class="; "trait"; " href=";
      "https://doc.rust-lang.org/1.58.0/core/str/traits/trait.FromStr.html"; " title=";
      "trait core::str::traits::FromStr"; ">FromStr</a> for <a class="; "enum"; " href=";
      "datamodel_connector/capabilities/enum.ConnectorCapability.html"; " title=";
      "enum datamodel_connector::capabilities::ConnectorCapability"; ">ConnectorCapability</a>"]));
    ("synthetic", VBool false);
    ("types", VArr [VStr "datamodel_connector::capabilities::ConnectorCapability"])]]);
  (* line 13 *)
  ("dml", VArr [
    VObj [
    ("text", VStr (js [
      "impl <a class="; "trait"; " href=";
      "https://doc.rust-lang.org/1.58.0/core/str/traits/trait.FromStr.html"; " title=";
      "trait core::str::traits::FromStr"; ">FromStr</a> for <a class="; "enum"; " href=";
      "dml/scalars/enum.ScalarType.html"; " title="; "enum dml::scalars::ScalarType";
      ">ScalarType</a>"]));
    ("synthetic", VBool false);
    ("types", VArr [VStr "dml::scalars::ScalarType"])]]);
  (* line 14 *)
  ("graphql_parser", VArr [
    VObj [
    ("text", VStr (js [
      "impl <a class="; "trait"; " href=";
      "https://doc.rust-lang.org/1.58.0/core/str/traits/trait.FromStr.html"; " title=";
      "trait core::str::traits::FromStr"; ">FromStr</a> for <a class="; "enum"; " href=";
      "graphql_parser/schema/enum.DirectiveLocation.html"; " title=";
      "enum graphql_parser::schema::DirectiveLocation"; ">DirectiveLocation</a>"]));
    ("synthetic", VBool false);
    ("types", VArr [VStr "graphql_parser::schema::ast::DirectiveLocation"])]]);
  (* line 15 *)
  ("http", VArr [
    VObj [
    ("text", VStr (js [
      "impl <a class="; "trait"; " href=";
      "https://doc.rust-lang.org/1.58.0/core/str/traits/trait.FromStr.html"; " title=";
      "trait core::str::traits::FromStr"; ">FromStr</a> for <a class="; "struct"; " href=";
      "http/header/struct.HeaderName.html"; " title="; "struct http::header::HeaderName";
      ">HeaderName</a>"]));
    ("synthetic", VBool false);
    ("types", VArr [VStr "http::header::name::HeaderName"])];
    VObj [
    ("text", VStr (js [
      "impl <a class="; "trait"; " href=";
      "https://doc.rust-lang.org/1.58.0/core/str/traits/trait.FromStr.html"; " title=";
      "trait core::str::traits::FromStr"; ">FromStr</a> for <a class="; "struct"; " href=";
      "http/header/struct.HeaderValue.html"; " title="; "struct http::header::HeaderValue";
      ">HeaderValue</a>"]));
    ("synthetic", VBool false);
    ("types", VArr [VStr "http::header::value::HeaderValue"])];
    VObj [
    ("text", VStr (js [
      "impl <a class="; "trait"; " href=";
      "https://doc.rust-lang.org/1.58.0/core/str/traits/trait.FromStr.html"; " title=";
      "trait core::str::traits::FromStr"; ">FromStr</a> for <a class="; "struct"; " href=";
      "http/method/struct.Method.html"; " title="; "struct http::method::Method"; ">Method</a>"]));
    ("synthetic", VBool false);
    ("types", VArr [VStr "http::method::Method"])];
    VObj [
    ("text", VStr (js [
      "impl <a class="; "trait"; " href=";
      "https://doc.rust-lang.org/1.58.0/core/str/traits/trait.FromStr.html"; " title=";
      "trait core::str::traits::FromStr"; ">FromStr</a> for <a class="; "struct"; " href=";
      "http/status/struct.StatusCode.html"; " title="; "struct http::status::StatusCode";
      ">StatusCode</a>"]));
    ("synthetic", VBool false);
    ("types", VArr [VStr "http::status::StatusCode"])];
    VObj [
    ("text", VStr (js [
      "impl <a class="; "trait"; " href=";
      "https://doc.rust-lang.org/1.58.0/core/str/traits/trait.FromStr.html"; " title=";
      "trait core::str::traits::FromStr"; ">FromStr</a> for <a class="; "struct"; " href=";
      "http/uri/struct.Authority.html"; " title="; "struct http::uri::Authority";
      ">Authority</a>"]));
    ("synthetic", VBool false);
    ("types", VArr [VStr "http::uri::authority::Authority"])];
    VObj [
    ("text", VStr (js [
      "impl <a class="; "trait"; " href=";
      "https://doc.rust-lang.org/1.58.0/core/str/traits/trait.FromStr.html"; " title=";
      "trait core::str::traits::FromStr"; ">FromStr</a> for <a class="; "struct"; " href=";
      "http/uri/struct.PathAndQuery.html"; " title="; "struct http::uri::PathAndQuery";
      ">PathAndQuery</a>"]));
    ("synthetic", VBool false);
    ("types", VArr [VStr "http::uri::path::PathAndQuery"])];
    VObj [
    ("text", VStr (js [
      "impl <a class="; "trait"; " href=";
      "https://doc.rust-lang.org/1.58.0/core/str/traits/trait.FromStr.html"; " title=";
      "trait core::str::traits::FromStr"; ">FromStr</a> for <a class="; "struct"; " href=";
      "http/uri/struct.Scheme.html"; " title="; "struct http::uri::Scheme"; ">Scheme</a>"]));
    ("synthetic", VBool false);
    ("types", VArr [VStr "http::uri::scheme::Scheme"])];
    VObj [
    ("text", VStr (js [
      "impl <a class="; "trait"; " href=";
      "https://doc.rust-lang.org/1.58.0/core/str/traits/trait.FromStr.html"; " title=";
      "trait core::str::traits::FromStr"; ">FromStr</a> for <a class="; "struct"; " href=";
      "http/uri/struct.Uri.html"; " title="; "struct http::uri::Uri"; ">Uri</a>"]));
    ("synthetic", VBool false);
    ("types", VArr [VStr "http::uri::Uri"])]]);
  (* line 16 *)
  ("http_types", VArr [
    VObj [
    ("text", VStr (js [
      "impl <a class="; "trait"; " href=";
      "https://doc.rust-lang.org/1.58.0/core/str/traits/trait.FromStr.html"; " title=";
      "trait core::str::traits::FromStr"; ">FromStr</a> for <a class="; "enum"; " href=";
      "http_types/auth/enum.AuthenticationScheme.html"; " title=";
      "enum http_types::auth::AuthenticationScheme"; ">AuthenticationScheme</a>"]));
    ("synthetic", VBool false);
    ("types", VArr [VStr "http_types::auth::authentication_scheme::AuthenticationScheme"])];
    VObj [
    ("text", VStr (js [
      "impl <a class="; "trait"; " href=";
      "https://doc.rust-lang.org/1.58.0/core/str/traits/trait.FromStr.html"; " title=";
      "trait core::str::traits::FromStr"; ">FromStr</a> for <a class="; "enum"; " href=";
      "http_types/cache/enum.ClearDirective.html"; " title=";
      "enum http_types::cache::ClearDirective"; ">ClearDirective</a>"]));
    ("synthetic", VBool false);
    ("types", VArr [VStr "http_types::cache::clear_site_data::directive::ClearDirective"])];
    VObj [
    ("text", VStr (js [
      "impl <a class="; "trait"; " href=";
      "https://doc.rust-lang.org/1.58.0/core/str/traits/trait.FromStr.html"; " title=";
      "trait core::str::traits::FromStr"; ">FromStr</a> for <a class="; "struct"; " href=";
      "http_types/headers/struct.HeaderName.html"; " title=";
      "struct http_types::headers::HeaderName"; ">HeaderName</a>"]));
    ("synthetic", VBool false);
    ("types", VArr [VStr "http_types::headers::header_name::HeaderName"])];
    VObj [
    ("text", VStr (js [
      "impl <a class="; "trait"; " href=";
      "https://doc.rust-lang.org/1.58.0/core/str/traits/trait.FromStr.html"; " title=";
      "trait core::str::traits::FromStr"; ">FromStr</a> for <a class="; "struct"; " href=";
      "http_types/headers/struct.HeaderValue.html"; " title=";
      "struct http_types::headers::HeaderValue"; ">HeaderValue</a>"]));
    ("synthetic", VBool false);
    ("types", VArr [VStr "http_types::headers::header_value::HeaderValue"])];
    VObj [
    ("text", VStr (js [
      "impl <a class="; "trait"; " href=";
      "https://doc.rust-lang.org/1.58.0/core/str/traits/trait.FromStr.html"; " title=";
      "trait core::str::traits::FromStr"; ">FromStr</a> for <a class="; "struct"; " href=";
      "http_types/struct.Mime.html"; " title="; "struct http_types::Mime"; ">Mime</a>"]));
    ("synthetic", VBool false);
    ("types", VArr [VStr "http_types::mime::Mime"])];
    VObj [
    ("text", VStr (js [
      "impl <a class="; "trait"; " href=";
      "https://doc.rust-lang.org/1.58.0/core/str/traits/trait.FromStr.html"; " title=";
      "trait core::str::traits::FromStr"; ">FromStr</a> for <a class="; "struct"; " href=";
      "http_types/mime/struct.ParamName.html"; " title="; "struct http_types::mime::ParamName";
      ">ParamName</a>"]));
    ("synthetic", VBool false);
    ("types", VArr [VStr "http_types::mime::ParamName"])];
    VObj [
    ("text", VStr (js [
      "impl <a class="; "trait"; " href=";
      "https://doc.rust-lang.org/1.58.0/core/str/traits/trait.FromStr.html"; " title=";
      "trait core::str::traits::FromStr"; ">FromStr</a> for <a class="; "enum"; " href=";
      "http_types/enum.Method.html"; " title="; "enum http_types::Method"; ">Method</a>"]));
    ("synthetic", VBool false);
    ("types", VArr [VStr "http_types::method::Method"])]]);
  (* line 17 *)
  ("httpdate", VArr [
    VObj [
    ("text", VStr (js [
      "impl <a class="; "trait"; " href=";
      "https://doc.rust-lang.org/1.58.0/core/str/traits/trait.FromStr.html"; " title=";
      "trait core::str::traits::FromStr"; ">FromStr</a> for <a class="; "struct"; " href=";
      "httpdate/struct.HttpDate.html"; " title="; "struct httpdate::HttpDate"; ">HttpDate</a>"]));
    ("synthetic", VBool false);
    ("types", VArr [VStr "httpdate::date::HttpDate"])]]);
  (* line 18 *)
  ("hyper", VArr [
    VObj [
    ("text", VStr (js [
      "impl <a class="; "trait"; " href=";
      "https://doc.rust-lang.org/1.58.0/core/str/traits/trait.FromStr.html"; " title=";
      "trait core::str::traits::FromStr"; ">FromStr</a> for <a class="; "struct"; " href=";
      "hyper/client/connect/dns/struct.Name.html"; " title=";
      "struct hyper::client::connect::dns::Name"; ">Name</a>"]));
    ("synthetic", VBool false);
    ("types", VArr [VStr "hyper::client::connect::dns::Name"])]]);
  (* line 19 *)
  ("ipnet", VArr [
    VObj [
    ("text", VStr (js [
      "impl <a class="; "trait"; " href=";
      "https://doc.rust-lang.org/1.58.0/core/str/traits/trait.FromStr.html"; " title=";
      "trait core::str::traits::FromStr"; ">FromStr</a> for <a class="; "enum"; " href=";
      "ipnet/enum.IpNet.html"; " title="; "enum ipnet::IpNet"; ">IpNet</a>"]));
    ("synthetic", VBool false);
    ("types", VArr [VStr "ipnet::ipnet::IpNet"])];
    VObj [
    ("text", VStr (js [
      "impl <a class="; "trait"; " href=";
      "https://doc.rust-lang.org/1.58.0/core/str/traits/trait.FromStr.html"; " title=";
      "trait core::str::traits::FromStr"; ">FromStr</a> for <a class="; "struct"; " href=";
      "ipnet/struct.Ipv4Net.html"; " title="; "struct ipnet::Ipv4Net"; ">Ipv4Net</a>"]));
    ("synthetic", VBool false);
    ("types", VArr [VStr "ipnet::ipnet::Ipv4Net"])];
    VObj [
    ("text", VStr (js [
      "impl <a class="; "trait"; " href=";
      "https://doc.rust-lang.org/1.58.0/core/str/traits/trait.FromStr.html"; " title=";
      "trait core::str::traits::FromStr"; ">FromStr</a> for <a class="; "struct"; " href=";
      "ipnet/struct.Ipv6Net.html"; " title="; "struct ipnet::Ipv6Net"; ">Ipv6Net</a>"]));
    ("synthetic", VBool false);
    ("types", VArr [VStr "ipnet::ipnet::Ipv6Net"])]]);
  (* line 20 *)
  ("log", VArr [
    VObj [
    ("text", VStr (js [
      "impl <a class="; "trait"; " href=";
      "https://doc.rust-lang.org/1.58.0/core/str/traits/trait.FromStr.html"; " title=";
      "trait core::str::traits::FromStr"; ">FromStr</a> for <a class="; "enum"; " href=";
      "log/enum.Level.html"; " title="; "enum log::Level"; ">Level</a>"]));
    ("synthetic", VBool false);
    ("types", VArr [VStr "log::Level"])];
    VObj [
    ("text", VStr (js [
      "impl <a class="; "trait"; " href=";
      "https://doc.rust-lang.org/1.58.0/core/str/traits/trait.FromStr.html"; " title=";
      "trait core::str::traits::FromStr"; ">FromStr</a> for <a class="; "enum"; " href=";
      "log/enum.LevelFilter.html"; " title="; "enum log::LevelFilter"; ">LevelFilter</a>"]));
    ("synthetic", VBool false);
    ("types", VArr [VStr "log::LevelFilter"])]]);
  (* line 21 *)
  ("matchers", VArr [
    VObj [
    ("text", VStr (js [
      "impl <a class="; "trait"; " href=";
      "https://doc.rust-lang.org/1.58.0/core/str/traits/trait.FromStr.html"; " title=";
      "trait core::str::traits::FromStr"; ">FromStr</a> for <a class="; "struct"; " href=";
      "matchers/struct.Pattern.html"; " title="; "struct matchers::Pattern"; ">Pattern</a>"]));
    ("synthetic", VBool false);
    ("types", VArr [VStr "matchers::Pattern"])]]);
  (* line 22 *)
  ("mongodb", VArr [
    VObj [
    ("text", VStr (js [
      "impl <a class="; "trait"; " href=";
      "https://doc.rust-lang.org/1.58.0/core/str/traits/trait.FromStr.html"; " title=";
      "trait core::str::traits::FromStr"; ">FromStr</a> for <a class="; "enum"; " href=";
      "mongodb/options/enum.AuthMechanism.html"; " title=";
      "enum mongodb::options::AuthMechanism"; ">AuthMechanism</a>"]));
    ("synthetic", VBool false);
    ("types", VArr [VStr "mongodb::client::auth::AuthMechanism"])];
    VObj [
    ("text", VStr (js [
      "impl <a class="; "trait"; " href=";
      "https://doc.rust-lang.org/1.58.0/core/str/traits/trait.FromStr.html"; " title=";
      "trait core::str::traits::FromStr"; ">FromStr</a> for <a class="; "enum"; " href=";
      "mongodb/options/enum.ServerAddress.html"; " title=";
      "enum mongodb::options::ServerAddress"; ">ServerAddress</a>"]));
    ("synthetic", VBool false);
    ("types", VArr [VStr "mongodb::client::options::ServerAddress"])];
    VObj [
    ("text", VStr (js [
      "impl <a class="; "trait"; " href=";
      "https://doc.rust-lang.org/1.58.0/core/str/traits/trait.FromStr.html"; " title=";
      "trait core::str::traits::FromStr"; ">FromStr</a> for <a class="; "enum"; " href=";
      "mongodb/options/enum.ServerApiVersion.html"; " title=";
      "enum mongodb::options::ServerApiVersion"; ">ServerApiVersion</a>"]));
    ("synthetic", VBool false);
    ("types", VArr [VStr "mongodb::client::options::ServerApiVersion"])];
    VObj [
    ("text", VStr (js [
      "impl <a class="; "trait"; " href=";
      "https://doc.rust-lang.org/1.58.0/core/str/traits/trait.FromStr.html"; " title=";
      "trait core::str::traits::FromStr"; ">FromStr</a> for <a class="; "enum"; " href=";
      "mongodb/options/enum.CollationCaseFirst.html"; " title=";
      "enum mongodb::options::CollationCaseFirst"; ">CollationCaseFirst</a>"]));
    ("synthetic", VBool false);
    ("types", VArr [VStr "mongodb::collation::CollationCaseFirst"])];
    VObj [
    ("text", VStr (js [
      "impl <a class="; "trait"; " href=";
      "https://doc.rust-lang.org/1.58.0/core/str/traits/trait.FromStr.html"; " title=";
      "trait core::str::traits::FromStr"; ">FromStr</a> for <a class="; "enum"; " href=";
      "mongodb/options/enum.CollationAlternate.html"; " title=";
      "enum mongodb::options::CollationAlternate"; ">CollationAlternate</a>"]));
    ("synthetic", VBool false);
    ("types", VArr [VStr "mongodb::collation::CollationAlternate"])];
    VObj [
    ("text", VStr (js [
      "impl <a class="; "trait"; " href=";
      "https://doc.rust-lang.org/1.58.0/core/str/traits/trait.FromStr.html"; " title=";
      "trait core::str::traits::FromStr"; ">FromStr</a> for <a class="; "enum"; " href=";
      "mongodb/options/enum.CollationMaxVariable.html"; " title=";
      "enum mongodb::options::CollationMaxVariable"; ">CollationMaxVariable</a>"]));
    ("synthetic", VBool false);
    ("types", VArr [VStr "mongodb::collation::CollationMaxVariable"])]]);
  (* line 23 *)
  ("mysql_async", VArr [
    VObj [
    ("text", VStr (js [
      "impl <a class="; "trait"; " href=";
      "https://doc.rust-lang.org/1.58.0/core/str/traits/trait.FromStr.html"; " title=";
      "trait core::str::traits::FromStr"; ">FromStr</a> for <a class="; "struct"; " href=";
      "mysql_async/struct.Opts.html"; " title="; "struct mysql_async::Opts"; ">Opts</a>"]));
    ("synthetic", VBool false);
    ("types", VArr [VStr "mysql_async::opts::Opts"])]]);
  (* line 24 *)
  ("num_bigint", VArr [
    VObj [
    ("text", VStr (js [
      "impl <a class="; "trait"; " href=";
      "https://doc.rust-lang.org/1.58.0/core/str/traits/trait.FromStr.html"; " title=";
      "trait core::str::traits::FromStr"; ">FromStr</a> for <a class="; "struct"; " href=";
      "num_bigint/struct.BigInt.html"; " title="; "struct num_bigint::BigInt"; ">BigInt</a>"]));
    ("synthetic", VBool false);
    ("types", VArr [VStr "num_bigint::bigint::BigInt"])];
    VObj [
    ("text", VStr (js [
      "impl <a class="; "trait"; " href=";
      "https://doc.rust-lang.org/1.58.0/core/str/traits/trait.FromStr.html"; " title=";
      "trait core::str::traits::FromStr"; ">FromStr</a> for <a class="; "struct"; " href=";
      "num_bigint/struct.BigUint.html"; " title="; "struct num_bigint::BigUint"; ">BigUint</a>"]));
    ("synthetic", VBool false);
    ("types", VArr [VStr "num_bigint::biguint::BigUint"])]]);
  (* line 25 *)
  ("opentelemetry", VArr [
    VObj [
    ("text", VStr (js [
      "impl <a class="; "trait"; " href=";
      "https://doc.rust-lang.org/1.58.0/core/str/traits/trait.FromStr.html"; " title=";
      "trait core::str::traits::FromStr"; ">FromStr</a> for <a class="; "struct"; " href=";
      "opentelemetry/trace/struct.TraceState.html"; " title=";
      "struct opentelemetry::trace::TraceState"; ">TraceState</a>"]));
    ("synthetic", VBool false);
    ("types", VArr [VStr "opentelemetry::trace::span_context::TraceState"])]]);
  (* line 26 *)
  ("postgres_types", VArr [
    VObj [
    ("text", VStr (js [
      "impl <a class="; "trait"; " href=";
      "https://doc.rust-lang.org/1.58.0/core/str/traits/trait.FromStr.html"; " title=";
      "trait core::str::traits::FromStr"; ">FromStr</a> for <a class="; "struct"; " href=";
      "postgres_types/struct.PgLsn.html"; " title="; "struct postgres_types::PgLsn";
      ">PgLsn</a>"]));
    ("synthetic", VBool false);
    ("types", VArr [VStr "postgres_types::pg_lsn::PgLsn"])]]);
  (* line 27 *)
  ("proc_macro2", VArr [
    VObj [
    ("text", VStr (js [
      "impl <a class="; "trait"; " href=";
      "https://doc.rust-lang.org/1.58.0/core/str/traits/trait.FromStr.html"; " title=";
      "trait core::str::traits::FromStr"; ">FromStr</a> for <a class="; "struct"; " href=";
      "proc_macro2/struct.TokenStream.html"; " title="; "struct proc_macro2::TokenStream";
      ">TokenStream</a>"]));
    ("synthetic", VBool false);
    ("types", VArr [VStr "proc_macro2::TokenStream"])];
    VObj [
    ("text", VStr (js [
      "impl <a class="; "trait"; " href=";
      "https://doc.rust-lang.org/1.58.0/core/str/traits/trait.FromStr.html"; " title=";
      "trait core::str::traits::FromStr"; ">FromStr</a> for <a class="; "struct"; " href=";
      "proc_macro2/struct.Literal.html"; " title="; "struct proc_macro2::Literal";
      ">Literal</a>"]));
    ("synthetic", VBool false);
    ("types", VArr [VStr "proc_macro2::Literal"])]]);
  (* line 28 *)
  ("quaint", VArr [
    VObj [
    ("text", VStr (js [
      "impl <a class="; "trait"; " href=";
      "https://doc.rust-lang.org/1.58.0/core/str/traits/trait.FromStr.html"; " title=";
      "trait core::str::traits::FromStr"; ">FromStr</a> for <a class="; "enum"; " href=";
      "quaint/connector/enum.EncryptMode.html"; " title=";
      "enum quaint::connector::EncryptMode"; ">EncryptMode</a>"]));
    ("synthetic", VBool false);
    ("types", VArr [VStr "quaint::connector::mssql::EncryptMode"])];
    VObj [
    ("text", VStr (js [
      "impl <a class="; "trait"; " href=";
      "https://doc.rust-lang.org/1.58.0/core/str/traits/trait.FromStr.html"; " title=";
      "trait core::str::traits::FromStr"; ">FromStr</a> for <a class="; "enum"; " href=";
      "quaint/connector/enum.IsolationLevel.html"; " title=";
      "enum quaint::connector::IsolationLevel"; ">IsolationLevel</a>"]));
    ("synthetic", VBool false);
    ("types", VArr [VStr "quaint::connector::mssql::IsolationLevel"])]]);
  (* line 29 *)
  ("query_tests_setup", VArr [
    VObj [
    ("text", VStr (js [
      "impl <a class="; "trait"; " href=";
      "https://doc.rust-lang.org/1.58.0/core/str/traits/trait.FromStr.html"; " title=";
      "trait core::str::traits::FromStr"; ">FromStr</a> for <a class="; "enum"; " href=";
      "query_tests_setup/enum.VitessVersion.html"; " title=";
      "enum query_tests_setup::VitessVersion"; ">VitessVersion</a>"]));
    ("synthetic", VBool false);
    ("types", VArr [VStr "query_tests_setup::connector_tag::vitess::VitessVersion"])];
    VObj [
    ("text", VStr (js [
      "impl <a class="; "trait"; " href=";
      "https://doc.rust-lang.org/1.58.0/core/str/traits/trait.FromStr.html"; " title=";
      "trait core::str::traits::FromStr"; ">FromStr</a> for <a class="; "struct"; " href=";
      "query_tests_setup/struct.DatamodelWithParams.html"; " title=";
      "struct query_tests_setup::DatamodelWithParams"; ">DatamodelWithParams</a>"]));
    ("synthetic", VBool false);
    ("types", VArr [VStr "query_tests_setup::schema_gen::schema_with_relation::DatamodelWithParams"])]]);
  (* line 30 *)
  ("regex", VArr [
    VObj [
    ("text", VStr (js [
      "impl <a class="; "trait"; " href=";
      "https://doc.rust-lang.org/1.58.0/core/str/traits/trait.FromStr.html"; " title=";
      "trait core::str::traits::FromStr"; ">FromStr</a> for <a class="; "struct"; " href=";
      "regex/bytes/struct.Regex.html"; " title="; "struct regex::bytes::Regex"; ">Regex</a>"]));
    ("synthetic", VBool false);
    ("types", VArr [VStr "regex::re_bytes::Regex"])];
    VObj [
    ("text", VStr (js [
      "impl <a class="; "trait"; " href=";
      "https://doc.rust-lang.org/1.58.0/core/str/traits/trait.FromStr.html"; " title=";
      "trait core::str::traits::FromStr"; ">FromStr</a> for <a class="; "struct"; " href=";
      "regex/struct.Regex.html"; " title="; "struct regex::Regex"; ">Regex</a>"]));
    ("synthetic", VBool false);
    ("types", VArr [VStr "regex::re_unicode::Regex"])]]);
  (* line 31 *)
  ("resolv_conf", VArr [
    VObj [
    ("text", VStr (js [
      "impl <a class="; "trait"; " href=";
      "https://doc.rust-lang.org/1.58.0/core/str/traits/trait.FromStr.html"; " title=";
      "trait core::str::traits::FromStr"; ">FromStr</a> for <a class="; "enum"; " href=";
      "resolv_conf/enum.ScopedIp.html"; " title="; "enum resolv_conf::ScopedIp";
      ">ScopedIp</a>"]));
    ("synthetic", VBool false);
    ("types", VArr [VStr "resolv_conf::ip::ScopedIp"])]]);
  (* line 32 *)
  ("serde_json", VArr [
    VObj [
    ("text", VStr (js [
      "impl <a class="; "trait"; " href=";
      "https://doc.rust-lang.org/1.58.0/core/str/traits/trait.FromStr.html"; " title=";
      "trait core::str::traits::FromStr"; ">FromStr</a> for <a class="; "struct"; " href=";
      "serde_json/value/struct.Number.html"; " title="; "struct serde_json::value::Number";
      ">Number</a>"]));
    ("synthetic", VBool false);
    ("types", VArr [VStr "serde_json::number::Number"])];
    VObj [
    ("text", VStr (js [
      "impl <a class="; "trait"; " href=";
      "https://doc.rust-lang.org/1.58.0/core/str/traits/trait.FromStr.html"; " title=";
      "trait core::str::traits::FromStr"; ">FromStr</a> for <a class="; "enum"; " href=";
      "serde_json/enum.Value.html"; " title="; "enum serde_json::Value"; ">Value</a>"]));
    ("synthetic", VBool false);
    ("types", VArr [VStr "serde_json::value::Value"])]]);
  (* line 33 *)
  ("sha1", VArr [
    VObj [
    ("text", VStr (js [
      "impl <a class="; "trait"; " href=";
      "https://doc.rust-lang.org/1.58.0/core/str/traits/trait.FromStr.html"; " title=";
      "trait core::str::traits::FromStr"; ">FromStr</a> for <a class="; "struct"; " href=";
      "sha1/struct.Digest.html"; " title="; "struct sha1::Digest"; ">Digest</a>"]));
    ("synthetic", VBool false);
    ("types", VArr [VStr "sha1::Digest"])]]);
  (* line 34 *)
  ("test_cli", VArr [
    VObj [
    ("text", VStr (js [
      "impl <a class="; "trait"; " href=";
      "https://doc.rust-lang.org/1.58.0/core/str/traits/trait.FromStr.html"; " title=";
      "trait core::str::traits::FromStr"; ">FromStr</a> for <a class="; "enum"; " href=";
      "test_cli/enum.DiffOutputType.html"; " title="; "enum test_cli::DiffOutputType";
      ">DiffOutputType</a>"]));
    ("synthetic", VBool false);
    ("types", VArr [VStr "test_cli::DiffOutputType"])]]);
  (* line 35 *)
  ("tokio_postgres", VArr [
    VObj [
    ("text", VStr (js [
      "impl <a class="; "trait"; " href=";
      "https://doc.rust-lang.org/1.58.0/core/str/traits/trait.FromStr.html"; " title=";
      "trait core::str::traits::FromStr"; ">FromStr</a> for <a class="; "struct"; " href=";
      "tokio_postgres/config/struct.Config.html"; " title=";
      "struct tokio_postgres::config::Config"; ">Config</a>"]));
    ("synthetic", VBool false);
    ("types", VArr [VStr "tokio_postgres::config::Config"])]]);
  (* line 36 *)
  ("toml", VArr [
    VObj [
    ("text", VStr (js [
      "impl <a class="; "trait"; " href=";
      "https://doc.rust-lang.org/1.58.0/core/str/traits/trait.FromStr.html"; " title=";
      "trait core::str::traits::FromStr"; ">FromStr</a> for <a class="; "enum"; " href=";
      "toml/value/enum.Value.html"; " title="; "enum toml::value::Value"; ">Value</a>"]));
    ("synthetic", VBool false);
    ("types", VArr [VStr "toml::value::Value"])];
    VObj [
    ("text", VStr (js [
      "impl <a class="; "trait"; " href=";
      "https://doc.rust-lang.org/1.58.0/core/str/traits/trait.FromStr.html"; " title=";
      "trait core::str::traits::FromStr"; ">FromStr</a> for <a class="; "struct"; " href=";
      "toml/value/struct.Datetime.html"; " title="; "struct toml::value::Datetime";
      ">Datetime</a>"]));
    ("synthetic", VBool false);
    ("types", VArr [VStr "toml::datetime::Datetime"])]]);
  (* line 37 *)
  ("tonic", VArr [
    VObj [
    ("text", VStr (js [
      "impl&lt;VE:&nbsp;ValueEncoding&gt; <a class="; "trait"; " href=";
      "https://doc.rust-lang.org/1.58.0/core/str/traits/trait.FromStr.html"; " title=";
      "trait core::str::traits::FromStr"; ">FromStr</a> for <a class="; "struct"; " href=";
      "tonic/metadata/struct.MetadataKey.html"; " title=";
      "struct tonic::metadata::MetadataKey"; ">MetadataKey</a>&lt;VE&gt;"]));
    ("synthetic", VBool false);
    ("types", VArr [VStr "tonic::metadata::key::MetadataKey"])];
    VObj [
    ("text", VStr (js [
      "impl <a class="; "trait"; " href=";
      "https://doc.rust-lang.org/1.58.0/core/str/traits/trait.FromStr.html"; " title=";
      "trait core::str::traits::FromStr"; ">FromStr</a> for <a class="; "struct"; " href=";
      "tonic/transport/channel/struct.Endpoint.html"; " title=";
      "struct tonic::transport::channel::Endpoint"; ">Endpoint</a>"]));
    ("synthetic", VBool false);
    ("types", VArr [VStr "tonic::transport::channel::endpoint::Endpoint"])]]);
  (* line 38 *)
  ("tracing_core", VArr [
    VObj [
    ("text", VStr (js [
      "impl <a class="; "trait"; " href=";
      "https://doc.rust-lang.org/1.58.0/core/str/traits/trait.FromStr.html"; " title=";
      "trait core::str::traits::FromStr"; ">FromStr</a> for <a class="; "struct"; " href=";
      "tracing_core/struct.Level.html"; " title="; "struct tracing_core::Level"; ">Level</a>"]));
    ("synthetic", VBool false);
    ("types", VArr [VStr "tracing_core::metadata::Level"])];
    VObj [
    ("text", VStr (js [
      "impl <a class="; "trait"; " href=";
      "https://doc.rust-lang.org/1.58.0/core/str/traits/trait.FromStr.html"; " title=";
      "trait core::str::traits::FromStr"; ">FromStr</a> for <a class="; "struct"; " href=";
      "tracing_core/struct.LevelFilter.html"; " title="; "struct tracing_core::LevelFilter";
      ">LevelFilter</a>"]));
    ("synthetic", VBool false);
    ("types", VArr [VStr "tracing_core::metadata::LevelFilter"])]]);
  (* line 39 *)
  ("tracing_subscriber", VArr [
    VObj [
    ("text", VStr (js [
      "impl <a class="; "trait"; " href=";
      "https://doc.rust-lang.org/1.58.0/core/str/traits/trait.FromStr.html"; " title=";
      "trait core::str::traits::FromStr"; ">FromStr</a> for <a class="; "struct"; " href=";
      "tracing_subscriber/filter/struct.Directive.html"; " title=";
      "struct tracing_subscriber::filter::Directive"; ">Directive</a>"]));
    ("synthetic", VBool false);
    ("types", VArr [VStr "tracing_subscriber::filter::env::directive::Directive"])];
    VObj [
    ("text", VStr (js [
      "impl <a class="; "trait"; " href=";
      "https://doc.rust-lang.org/1.58.0/core/str/traits/trait.FromStr.html"; " title=";
      "trait core::str::traits::FromStr"; ">FromStr</a> for <a class="; "struct"; " href=";
      "tracing_subscriber/filter/struct.EnvFilter.html"; " title=";
      "struct tracing_subscriber::filter::EnvFilter"; ">EnvFilter</a>"]));
    ("synthetic", VBool false);
    ("types", VArr [VStr "tracing_subscriber::filter::env::EnvFilter"])];
    VObj [
    ("text", VStr (js [
      "impl <a class="; "trait"; " href=";
      "https://doc.rust-lang.org/1.58.0/core/str/traits/trait.FromStr.html"; " title=";
      "trait core::str::traits::FromStr"; ">FromStr</a> for <a class="; "struct"; " href=";
      "tracing_subscriber/filter/targets/struct.Targets.html"; " title=";
      "struct tracing_subscriber::filter::targets::Targets"; ">Targets</a>"]));
    ("synthetic", VBool false);
    ("types", VArr [VStr "tracing_subscriber::filter::targets::Targets"])]]);
  (* line 40 *)
  ("trust_dns_proto", VArr [
    VObj [
    ("text", VStr (js [
      "impl <a class="; "trait"; " href=";
      "https://doc.rust-lang.org/1.58.0/core/str/traits/trait.FromStr.html"; " title=";
      "trait core::str::traits::FromStr"; ">FromStr</a> for <a class="; "enum"; " href=";
      "trust_dns_proto/rr/dns_class/enum.DNSClass.html"; " title=";
      "enum trust_dns_proto::rr::dns_class::DNSClass"; ">DNSClass</a>"]));
    ("synthetic", VBool false);
    ("types", VArr [VStr "trust_dns_proto::rr::dns_class::DNSClass"])];
    VObj [
    ("text", VStr (js [
      "impl <a class="; "trait"; " href=";
      "https://doc.rust-lang.org/1.58.0/core/str/traits/trait.FromStr.html"; " title=";
      "trait core::str::traits::FromStr"; ">FromStr</a> for <a class="; "struct"; " href=";
      "trust_dns_proto/rr/domain/struct.Name.html"; " title=";
      "struct trust_dns_proto::rr::domain::Name"; ">Name</a>"]));
    ("synthetic", VBool false);
    ("types", VArr [VStr "trust_dns_proto::rr::domain::name::Name"])];
    VObj [
    ("text", VStr (js [
      "impl <a class="; "trait"; " href=";
      "https://doc.rust-lang.org/1.58.0/core/str/traits/trait.FromStr.html"; " title=";
      "trait core::str::traits::FromStr"; ">FromStr</a> for <a class="; "enum"; " href=";
      "trust_dns_proto/rr/rdata/svcb/enum.SvcParamKey.html"; " title=";
      "enum trust_dns_proto::rr::rdata::svcb::SvcParamKey"; ">SvcParamKey</a>"]));
    ("synthetic", VBool false);
    ("types", VArr [VStr "trust_dns_proto::rr::rdata::svcb::SvcParamKey"])];
    VObj [
    ("text", VStr (js [
      "impl <a class="; "trait"; " href=";
      "https://doc.rust-lang.org/1.58.0/core/str/traits/trait.FromStr.html"; " title=";
      "trait core::str::traits::FromStr"; ">FromStr</a> for <a class="; "enum"; " href=";
      "trust_dns_proto/rr/record_type/enum.RecordType.html"; " title=";
      "enum trust_dns_proto::rr::record_type::RecordType"; ">RecordType</a>"]));
    ("synthetic", VBool false);
    ("types", VArr [VStr "trust_dns_proto::rr::record_type::RecordType"])]]);
  (* line 41 *)
  ("url", VArr [
    VObj [
    ("text", VStr (js [
      "impl <a class="; "trait"; " href=";
      "https://doc.rust-lang.org/1.58.0/core/str/traits/trait.FromStr.html"; " title=";
      "trait core::str::traits::FromStr"; ">FromStr</a> for <a class="; "struct"; " href=";
      "url/struct.Url.html"; " title="; "struct url::Url"; ">Url</a>"]));
    ("synthetic", VBool false);
    ("types", VArr [VStr "url::Url"])]]);
  (* line 42 *)
  ("uuid", VArr [
    VObj [
    ("text", VStr (js [
      "impl <a class="; "trait"; " href=";
      "https://doc.rust-lang.org/1.58.0/core/str/traits/trait.FromStr.html"; " title=";
      "trait core::str::traits::FromStr"; ">FromStr</a> for <a class="; "struct"; " href=";
      "uuid/struct.Uuid.html"; " title="; "struct uuid::Uuid"; ">Uuid</a>"]));
    ("synthetic", VBool false);
    ("types", VArr [VStr "uuid::Uuid"])]])
].

(** Line 1 and lines 2 to 42 together: [var implementors = {};] followed by
    the assignments, each executed on the object the previous ones built. *)
Definition run_assignments (stmts : list (string * value)) (o : object) : object :=
  foldl (λ acc kv, obj_set kv.1 kv.2 acc) o stmts.

Definition implementors_obj : object := run_assignments assignments [].

(** The value of the local variable [implementors] when line 43 runs: the
    Registry of the spec. *)
Definition implementors : value := VObj implementors_obj.

(** ** The host environment *)

(** The global object [window], as its data properties.  The script touches
    two of them; the host page owns all the others. *)
Abbreviation window := (gmap string value).

Definition callback_slot : string := "register_implementors".
Definition pending_slot : string := "pending_implementors".

(** [window.k]: a property the object does not have reads as [undefined]. *)
Definition get_prop (k : string) (w : window) : value :=
  default VUndefined (w !! k).

(** What calling a host function does: it returns or throws, leaving the
    global object in some state, or it never comes back. *)
Inductive host_result :=
  | HReturn (v : value) (w : window)
  | HThrow (e : value) (w : window)
  | HDiverge.

Definition host_behaviour := fn_id → list value → window → host_result.

Definition host_window (r : host_result) : option window :=
  match r with
  | HReturn _ w | HThrow _ w => Some w
  | HDiverge => None
  end.

(** What the script itself does to its environment, in program order. *)
Inductive event :=
  | EvGet (k : string) (v : value)
  | EvSet (k : string) (v : value)
  | EvCall (f : fn_id) (args : list value).

(** An abrupt completion: the [TypeError] of calling something that is not
    callable, or whatever a callee threw. *)
Inductive thrown :=
  | NotCallable (v : value)
  | Raised (e : value).

Inductive outcome (A : Type) :=
  | Done (a : A) (w : window) (t : list event)
  | Failed (e : thrown) (w : window) (t : list event)
  | Diverged (t : list event).
Arguments Done {A} a w t.
Arguments Failed {A} e w t.
Arguments Diverged {A} t.

Definition trace {A} (o : outcome A) : list event :=
  match o with Done _ _ t | Failed _ _ t | Diverged t => t end.

Definition final_window {A} (o : outcome A) : option window :=
  match o with Done _ w _ | Failed _ w _ => Some w | Diverged _ => None end.

(** How a run ended, without the state it ended in. *)
Inductive completion :=
  | Normal
  | Abrupt (e : thrown)
  | NoReturn.

Definition completion_of {A} (o : outcome A) : completion :=
  match o with
  | Done _ _ _ => Normal
  | Failed e _ _ => Abrupt e
  | Diverged _ => NoReturn
  end.

(** The value a property has when the run is over, if the run ends. *)
Definition final_prop {A} (k : string) (o : outcome A) : option (option value) :=
  (λ w : window, w !! k) <$> final_window o.

(** The calls and the property writes of a trace. *)
Definition calls (t : list event) : list (fn_id * list value) :=
  omap (λ e, match e with EvCall f args => Some (f, args) | _ => None end) t.

Definition writes (t : list event) : list (string * value) :=
  omap (λ e, match e with EvSet k v => Some (k, v) | _ => None end) t.

Definition reads (t : list event) : list string :=
  omap (λ e, match e with EvGet k _ => Some k | _ => None end) t.

(** ** Scripts *)

(** Statements run against the global object, log what they do and may
    complete abruptly. *)
Definition script (A : Type) : Type := window → outcome A.

Definition ret {A} (a : A) : script A := λ w, Done a w [].

Definition bind {A B} (m : script A) (k : A → script B) : script B := λ w,
  match m w with
  | Done a w1 t1 =>
      match k a w1 with
      | Done b w2 t2 => Done b w2 (t1 ++ t2)
      | Failed e w2 t2 => Failed e w2 (t1 ++ t2)
      | Diverged t2 => Diverged (t1 ++ t2)
      end
  | Failed e w1 t1 => Failed e w1 t1
  | Diverged t1 => Diverged t1
  end.

Notation "'do' x <- m ; k" := (bind m (λ x, k))
  (at level 10, x name, m at level 100, k at level 200).
Notation "m ;; k" := (bind m (λ _, k))
  (at level 100, k at level 200, right associativity).

(** [window.k] as an expression. *)
Definition read (k : string) : script value := λ w,
  Done (get_prop k w) w [EvGet k (get_prop k w)].

(** [window.k = v;] *)
Definition write (k : string) (v : value) : script unit := λ w,
  Done tt (<[k := v]> w) [EvSet k v].

Section Publish.

Variable host : host_behaviour.

(** [c(args)]: only a function object can be called; anything else is a
    [TypeError], raised before anything is run. *)
Definition call (c : value) (args : list value) : script value := λ w,
  match c with
  | VFun f =>
      match host f args w with
      | HReturn v w' => Done v w' [EvCall f args]
      | HThrow e w' => Failed (Raised e) w' [EvCall f args]
      | HDiverge => Diverged [EvCall f args]
      end
  | _ => Failed (NotCallable c) w []
  end.

(** Line 43, run with the object that lines 1 to 42 built:
    [if (window.register_implementors)
       {window.register_implementors(implementors);}
     else {window.pending_implementors = implementors;}]
    The function has no [return]: its value is discarded. *)
Definition publish : script unit :=
  do c <- read callback_slot;
  if to_boolean c then
    do f <- read callback_slot;
    call f [implementors] ;; ret tt
  else
    write pending_slot implementors.

(** Two evaluations of the script, one after the other. *)
Definition publish_twice : script unit := publish ;; publish.

End Publish.

(** ** Shape of the Registry *)

(** Executable forms of the shape conditions, run over the literal data. *)
Definition is_string (v : value) : bool :=
  match v with VStr _ => true | _ => false end.

Definition record_ok (r : value) : bool :=
  match r with
  | VObj ps =>
      match obj_get "text" ps, obj_get "synthetic" ps, obj_get "types" ps with
      | Some (VStr t), Some (VBool b), Some (VArr (ty :: tys)) =>
          negb (String.eqb t "") && negb b && forallb is_string (ty :: tys)
      | _, _, _ => false
      end
  | _ => false
  end.

Definition record_list_ok (v : value) : bool :=
  match v with
  | VArr (r :: rs) => forallb record_ok (r :: rs)
  | _ => false
  end.

Definition records_of (v : value) : list value :=
  match v with VArr rs => rs | _ => [] end.

(** The same conditions as propositions: an implementor record, and a
    non-empty array of them. *)
Definition record_shape (r : value) : Prop :=
  ∃ ps t b ts,
    r = VObj ps ∧
    obj_get "text" ps = Some (VStr t) ∧ t ≠ "" ∧
    obj_get "synthetic" ps = Some (VBool b) ∧ b = false ∧
    obj_get "types" ps = Some (VArr ts) ∧ ts ≠ [] ∧
    Forall (λ ty, ∃ s, ty = VStr s) ts.

Definition nonempty_record_list (v : value) : Prop :=
  ∃ r rs, v = VArr (r :: rs) ∧ Forall record_shape (r :: rs).

(** ** Example hosts *)

(** A host page for the examples.  Function 0 collects what it is given, in
    the manner of the documentation browser; function 1 throws; function 2
    never returns; every other function removes itself from the callback
    slot and returns. *)
Definition demo_host : host_behaviour := λ f args w,
  match f with
  | 0 => HReturn VUndefined (<["collected" := default VUndefined (head args)]> w)
  | 1 => HThrow (VStr "boom") w
  | 2 => HDiverge
  | _ => HReturn VUndefined (delete callback_slot w)
  end.

(** A page that has set the callback slot to [c] and nothing else, one on
    which some earlier script left stale pending data, and one with both. *)
Definition page_with (c : value) : window := {[ callback_slot := c ]}.

Definition stale_page : window := {[ pending_slot := VStr "stale" ]}.

Definition demo_page (c : value) : window :=
  <[pending_slot := VStr "stale"]> (page_with c).

(** The falsy values of the language, as [to_boolean] lists them. *)
Definition falsy_values : list value :=
  [VUndefined; VNull; VBool false; VNum (S754_zero false);
   VNum (S754_zero true); VNum S754_nan; VBigInt 0; VStr ""].

(** Line 43 takes the callback slot to hold no callback when what it reads
    there is falsy: the property is missing or [undefined], as on a page
    that has not installed one, or holds any other falsy value. *)
Definition callback_absent (w : window) : Prop :=
  to_boolean (get_prop callback_slot w) = false.

(** ** Further conditions on the Registry *)

(** What every [text] carries after its [impl] keyword and generics: the
    end of the link to the trait, then [for] and the implementing type. *)
Definition FromStr_anchor : string :=
  js ["core/str/traits/trait.FromStr.html"; " title=";
      "trait core::str::traits::FromStr"; ">FromStr</a> for "].

Definition starts_with (p s : string) : Prop :=
  String.substring 0 (String.length p) s = p.

Definition occurs_in (p s : string) : Prop :=
  ∃ n, String.substring n (String.length p) s = p.

Definition contains (p s : string) : bool :=
  match String.index 0 p s with Some _ => true | None => false end.

(** A record filed under key [k] names one type, by a path below [k]. *)
Definition filed_under_ok (k : string) (r : value) : bool :=
  match r with
  | VObj ps =>
      match obj_get "types" ps with
      | Some (VArr [VStr ty]) => String.prefix (k +:+ "::") ty
      | _ => false
      end
  | _ => false
  end.

Definition filed_under (k : string) (r : value) : Prop :=
  ∃ ps ty, r = VObj ps ∧ obj_get "types" ps = Some (VArr [VStr ty]) ∧
           starts_with (k +:+ "::") ty.

(** A record whose [text] is an implementation of the trait. *)
Definition impl_of_FromStr_ok (r : value) : bool :=
  match r with
  | VObj ps =>
      match obj_get "text" ps with
      | Some (VStr t) => String.prefix "impl" t && contains FromStr_anchor t
      | _ => false
      end
  | _ => false
  end.

Definition impl_of_FromStr (r : value) : Prop :=
  ∃ ps t, r = VObj ps ∧ obj_get "text" ps = Some (VStr t) ∧
          starts_with "impl" t ∧ occurs_in FromStr_anchor t.

(** A host whose functions all return at once and touch nothing. *)
Definition quiet_host : host_behaviour := λ _ _ w, HReturn VUndefined w.

(** ** Objects built by assignment *)

Lemma obj_get_elem_of (k : string) (v : value) (o : object) :
  obj_get k o = Some v → (k, v) ∈ o.
Proof.
  induction o as [|[k' v'] o IH]; simpl; [done|].
  destruct (String.eqb_spec k k') as [->|Hne].
  - intros [= ->]. apply list_elem_of_here.
  - intros Hget. apply list_elem_of_further, IH, Hget.
Qed.

Lemma obj_get_NoDup (k : string) (v : value) (o : object) :
  NoDup (obj_keys o) → (k, v) ∈ o → obj_get k o = Some v.
Proof.
  induction o as [|[k' v'] o IH]; simpl.
  - intros _ Hin. by apply elem_of_nil in Hin.
  - rewrite NoDup_cons. intros [Hfresh Hnd] Hin.
    apply elem_of_cons in Hin as [[= -> ->]|Hin].
    + by rewrite String.eqb_refl.
    + destruct (String.eqb_spec k k') as [->|_]; [|by apply IH].
      exfalso. apply Hfresh. change k' with ((k', v).1).
      by apply list_elem_of_fmap_2.
Qed.

(** Assigning a property the object does not have yet appends it. *)
Lemma obj_set_fresh (k : string) (v : value) (o : object) :
  k ∉ obj_keys o → obj_set k v o = o ++ [(k, v)].
Proof.
  induction o as [|[k' v'] o IH]; simpl; [done|].
  rewrite not_elem_of_cons. intros [Hne Hnotin].
  destruct (String.eqb_spec k k') as [->|_]; [done|]. by rewrite IH.
Qed.

(** Whatever is assigned, an object never lists a property name twice. *)
Lemma obj_set_keys (k : string) (v : value) (o : object) :
  obj_keys (obj_set k v o) =
    if bool_decide (k ∈ obj_keys o) then obj_keys o else obj_keys o ++ [k].
Proof.
  induction o as [|[k' v'] o IH]; simpl; [done|].
  destruct (String.eqb_spec k k') as [->|Hne]; simpl.
  - rewrite bool_decide_eq_true_2; [done | apply list_elem_of_here].
  - rewrite IH. unfold obj_keys.
    destruct (bool_decide_reflect (k ∈ o.*1)) as [Hin|Hnotin].
    + rewrite bool_decide_eq_true_2; [done | by apply list_elem_of_further].
    + rewrite bool_decide_eq_false_2; [done|].
      rewrite not_elem_of_cons. done.
Qed.

Lemma obj_set_NoDup (k : string) (v : value) (o : object) :
  NoDup (obj_keys o) → NoDup (obj_keys (obj_set k v o)).
Proof.
  intros Hnd. rewrite obj_set_keys. case_bool_decide as Hin; [done|].
  apply NoDup_app. split_and!; [done | | apply NoDup_singleton].
  intros x Hx Hx'. apply list_elem_of_singleton in Hx' as ->. done.
Qed.

Lemma run_assignments_NoDup (stmts : list (string * value)) (o : object) :
  NoDup (obj_keys o) → NoDup (obj_keys (run_assignments stmts o)).
Proof.
  revert o. induction stmts as [|[k v] stmts IH]; intros o Hnd; simpl; [done|].
  by apply IH, obj_set_NoDup.
Qed.

(** Statements that assign pairwise distinct names, none of them already a
    property, add their properties in statement order. *)
Lemma run_assignments_distinct (stmts : list (string * value)) (o : object) :
  NoDup (obj_keys o ++ stmts.*1) → run_assignments stmts o = o ++ stmts.
Proof.
  revert o. induction stmts as [|[k v] stmts IH]; intros o Hnd; simpl.
  - by rewrite app_nil_r.
  - assert (k ∉ obj_keys o) as Hfresh.
    { apply NoDup_app in Hnd as (_ & Hdisj & _).
      intros Hin. apply (Hdisj k Hin). apply list_elem_of_here. }
    rewrite IH.
    + rewrite obj_set_fresh by done. by rewrite <- app_assoc.
    + rewrite obj_set_fresh by done. unfold obj_keys.
      rewrite fmap_app, <- app_assoc. exact Hnd.
Qed.

(** ** The Registry *)

Lemma assignments_distinct : NoDup (assignments.*1).
Proof. apply (bool_decide_unpack _). vm_compute. exact I. Qed.

Lemma implementors_obj_eq : implementors_obj = assignments.
Proof.
  unfold implementors_obj. rewrite run_assignments_distinct; [done|].
  exact assignments_distinct.
Qed.
Lemma is_string_spec (v : value) : is_string v = true → ∃ s, v = VStr s.
Proof. destruct v; simpl; try discriminate. eauto. Qed.

Lemma forallb_Forall_imp {A} (p : A → bool) (P : A → Prop) (l : list A) :
  (∀ x, p x = true → P x) → forallb p l = true → Forall P l.
Proof.
  intros Hp. induction l as [|x l IH]; simpl; [constructor|].
  intros [Hx Hl]%andb_prop. constructor; auto.
Qed.

Lemma record_ok_spec (r : value) : record_ok r = true → record_shape r.
Proof.
  unfold record_ok, record_shape.
  destruct r as [| | | | | | | |ps|]; try discriminate.
  destruct (obj_get "text" ps) as [[| | | | |t| | | |]|] eqn:Etext;
    try discriminate.
  destruct (obj_get "synthetic" ps) as [[| |b| | | | | | |]|] eqn:Esyn;
    try discriminate.
  destruct (obj_get "types" ps) as [[| | | | | | |[|ty tys]| |]|] eqn:Etys;
    try discriminate.
  intros [[Ht Hb]%andb_prop Htys]%andb_prop.
  exists ps, t, b, (ty :: tys).
  assert (t ≠ "") as Hne by (intros ->; discriminate).
  assert (b = false) as Hfalse by (by destruct b).
  split_and!; try done.
  apply (forallb_Forall_imp is_string); [apply is_string_spec | exact Htys].
Qed.

Lemma record_list_ok_spec (v : value) :
  record_list_ok v = true → nonempty_record_list v.
Proof.
  destruct v as [| | | | | | |[|r rs]| |]; simpl; try discriminate.
  intros H. exists r, rs. split; [done|].
  apply (forallb_Forall_imp record_ok); [apply record_ok_spec | exact H].
Qed.

Lemma assignments_record_lists :
  Forall (λ kv, nonempty_record_list kv.2) assignments.
Proof.
  apply (forallb_Forall_imp (λ kv, record_list_ok kv.2)).
  - intros kv. apply record_list_ok_spec.
  - vm_compute. reflexivity.
Qed.

Lemma assignments_records :
  Forall (λ kv, Forall record_shape (records_of kv.2)) assignments.
Proof.
  apply (forallb_Forall_imp (λ kv, forallb record_ok (records_of kv.2))).
  - intros kv. apply forallb_Forall_imp, record_ok_spec.
  - vm_compute. reflexivity.
Qed.

(** ** Properties of the Registry *)

(** C5 (Registry completeness): a namespace key of the Registry holds an
    array with at least one element, each element an implementor record; no
    key holds an empty array. *)
Theorem registry_complete (k : string) (v : value) :
  obj_get k implementors_obj = Some v → nonempty_record_list v.
Proof.
  rewrite implementors_obj_eq. intros Hin%obj_get_elem_of.
  pose proof assignments_record_lists as Hall.
  rewrite Forall_forall in Hall. exact (Hall (k, v) Hin).
Qed.

Lemma registry_complete_witness :
  ∃ v, obj_get "uuid" implementors_obj = Some v ∧ nonempty_record_list v.
Proof.
  eexists. split; [vm_compute; reflexivity|].
  apply (registry_complete "uuid"). vm_compute. reflexivity.
Defined.

(** C6 (record shape invariant): in every record of every list of the
    Registry, [text] is a string other than the empty one, [synthetic] is a
    boolean, namely [false], and [types] is an array with at least one
    entry, all its entries strings. *)
Theorem registry_record_shape (k : string) (rs : list value) (r : value) :
  obj_get k implementors_obj = Some (VArr rs) → r ∈ rs → record_shape r.
Proof.
  rewrite implementors_obj_eq. intros Hin%obj_get_elem_of Hr.
  pose proof assignments_records as Hall.
  rewrite Forall_forall in Hall. specialize (Hall (k, VArr rs) Hin).
  cbn [records_of snd] in Hall.
  rewrite Forall_forall in Hall. exact (Hall r Hr).
Qed.

Lemma registry_record_shape_witness :
  ∃ rs r, obj_get "ipnet" implementors_obj = Some (VArr rs) ∧
          rs !! 2%nat = Some r ∧ record_shape r.
Proof.
  eexists _, _. split; [vm_compute; reflexivity|].
  split; [reflexivity|].
  eapply (registry_record_shape "ipnet").
  - vm_compute. reflexivity.
  - do 2 apply list_elem_of_further. apply list_elem_of_here.
Defined.

(** C7 (key uniqueness): the assignment statements name pairwise distinct
    properties, so no statement overwrites an earlier one: the Registry has
    one property per statement, in statement order, and looking a name up
    yields exactly the array assigned to it. *)
Theorem registry_keys_unique :
  NoDup (assignments.*1) ∧
  obj_keys implementors_obj = assignments.*1 ∧
  NoDup (obj_keys implementors_obj) ∧
  length (obj_keys implementors_obj) = 41%nat ∧
  ∀ k v, obj_get k implementors_obj = Some v ↔ (k, v) ∈ assignments.
Proof.
  split_and!.
  - exact assignments_distinct.
  - by rewrite implementors_obj_eq.
  - apply run_assignments_NoDup, NoDup_nil_2.
  - rewrite implementors_obj_eq. vm_compute. reflexivity.
  - rewrite implementors_obj_eq. intros k v. split; [apply obj_get_elem_of|].
    apply obj_get_NoDup, assignments_distinct.
Qed.

(** ** Truthiness *)

Lemma to_boolean_false_iff (v : value) :
  to_boolean v = false ↔ v ∈ falsy_values.
Proof.
  unfold falsy_values. split.
  - destruct v as [| |[]|[[]|[]| |]|n|s| | | |]; simpl; try discriminate;
      try (intros _; set_solver).
    + intros Hn%negb_false_iff%Z.eqb_eq. subst n. set_solver.
    + intros Hs%negb_false_iff%String.eqb_eq. subst s. set_solver.
  - rewrite !elem_of_cons, elem_of_nil.
    intros [->|[->|[->|[->|[->|[->|[->|[->|[]]]]]]]]]; reflexivity.
Qed.

(** A slot nobody has set, or set to [undefined], holds no callback. *)
Lemma callback_absent_missing (w : window) :
  w !! callback_slot = None → callback_absent w.
Proof. unfold callback_absent, get_prop. by intros ->. Qed.

Lemma callback_absent_undefined (w : window) :
  w !! callback_slot = Some VUndefined → callback_absent w.
Proof. unfold callback_absent, get_prop. by intros ->. Qed.

Lemma get_prop_lookup (k : string) (w : window) (v : value) :
  w !! k = Some v → get_prop k w = v.
Proof. unfold get_prop. by intros ->. Qed.

(** ** The three ways line 43 can go *)

Section PublishFacts.

Variable host : host_behaviour.

Local Opaque implementors.

(** The slot is falsy: the else branch. *)
Lemma publish_fallback (w : window) :
  to_boolean (get_prop callback_slot w) = false →
  publish host w =
    Done tt (<[pending_slot := implementors]> w)
      [EvGet callback_slot (get_prop callback_slot w);
       EvSet pending_slot implementors].
Proof. intros Hc. unfold publish, bind, read, write. by rewrite Hc. Qed.

(** The slot holds a function: the call, and whatever the call does. *)
Lemma publish_invoke (w : window) (f : fn_id) :
  get_prop callback_slot w = VFun f →
  publish host w =
    let t := [EvGet callback_slot (VFun f); EvGet callback_slot (VFun f);
              EvCall f [implementors]] in
    match host f [implementors] w with
    | HReturn _ w' => Done tt w' t
    | HThrow e w' => Failed (Raised e) w' t
    | HDiverge => Diverged t
    end.
Proof.
  intros Hc. unfold publish, bind, read, call, ret.
  rewrite Hc. simpl. rewrite Hc.
  by destruct (host f [implementors] w).
Qed.

(** The slot is truthy and not a function: the call expression throws. *)
Lemma publish_not_callable (w : window) :
  to_boolean (get_prop callback_slot w) = true →
  (∀ f, get_prop callback_slot w ≠ VFun f) →
  publish host w =
    Failed (NotCallable (get_prop callback_slot w)) w
      [EvGet callback_slot (get_prop callback_slot w);
       EvGet callback_slot (get_prop callback_slot w)].
Proof.
  intros Hc Hnf. unfold publish, bind, read, call, ret.
  rewrite Hc. simpl.
  destruct (get_prop callback_slot w); try done. by destruct (Hnf f).
Qed.

(** Every run is one of the three. *)
Lemma publish_cases (w : window) :
  to_boolean (get_prop callback_slot w) = false ∨
  (∃ f, get_prop callback_slot w = VFun f) ∨
  (to_boolean (get_prop callback_slot w) = true ∧
   ∀ f, get_prop callback_slot w ≠ VFun f).
Proof.
  destruct (to_boolean (get_prop callback_slot w)) eqn:Hc; [|by left].
  right. destruct (get_prop callback_slot w) eqn:Hv; eauto.
Qed.

Lemma slots_distinct : callback_slot ≠ pending_slot.
Proof. discriminate. Qed.

(** ** The contract of [publish] *)

(** C1 (callback-present path): when the callback slot holds a function,
    the run reads the slot, calls that function once with the Registry as
    the only argument, and does nothing else: it writes no property, so the
    global object it leaves is the one the callback left when called on the
    initial one, and the pending slot keeps its initial value whenever the
    callback itself does not assign it. *)
Theorem publish_callback_present (w : window) (f : fn_id) :
  w !! callback_slot = Some (VFun f) →
  let o := publish host w in
  trace o = [EvGet callback_slot (VFun f); EvGet callback_slot (VFun f);
             EvCall f [implementors]] ∧
  calls (trace o) = [(f, [implementors])] ∧
  writes (trace o) = [] ∧
  final_window o = host_window (host f [implementors] w) ∧
  ((∀ w', host_window (host f [implementors] w) = Some w' →
          w' !! pending_slot = w !! pending_slot) →
   ∀ w', final_window o = Some w' → w' !! pending_slot = w !! pending_slot).
Proof.
  intros Hf%get_prop_lookup o. subst o. rewrite (publish_invoke w f Hf).
  cbv zeta.
  destruct (host f [implementors] w) as [v w1|e w1|]; simpl;
    split_and!; try done; auto.
Qed.

(** C2 (callback-absent path): when the callback slot holds no callback,
    the run completes normally; it writes the Registry into the pending
    slot, once, calls nothing and leaves the callback slot as it was. *)
Theorem publish_callback_absent (w : window) :
  callback_absent w →
  ∃ w',
    publish host w =
      Done tt w' [EvGet callback_slot (get_prop callback_slot w);
                  EvSet pending_slot implementors] ∧
    w' !! callback_slot = w !! callback_slot ∧
    w' !! pending_slot = Some implementors ∧
    writes (trace (publish host w)) = [(pending_slot, implementors)] ∧
    calls (trace (publish host w)) = [].
Proof.
  intros Habsent. exists (<[pending_slot := implementors]> w).
  rewrite (publish_fallback w Habsent). split_and!; try done.
  - apply lookup_insert_ne. intros Heq. by apply slots_distinct.
  - apply lookup_insert_eq.
Qed.

(** C3, amended (slot-write frame condition): a run assigns at most one of
    the two slots.  It reads the callback slot and no other property, and
    never assigns it; it assigns the pending slot, once, in the else branch
    and assigns nothing in the other branch.  In the else branch every
    property but the pending slot is as before; in the other branch the run
    changes nothing itself, so the global object is the initial one, or
    what the callback made of the initial one. *)
Theorem publish_frame (w : window) :
  let o := publish host w in
  let c := get_prop callback_slot w in
  (∀ k, k ∈ reads (trace o) → k = callback_slot) ∧
  callback_slot ∈ reads (trace o) ∧
  (∀ v, (callback_slot, v) ∉ writes (trace o)) ∧
  writes (trace o) =
    (if to_boolean c then [] else [(pending_slot, implementors)]) ∧
  (to_boolean c = false →
   ∃ w', final_window o = Some w' ∧
         ∀ k, k ≠ pending_slot → w' !! k = w !! k) ∧
  (to_boolean c = true →
   final_window o =
     match c with
     | VFun f => host_window (host f [implementors] w)
     | _ => Some w
     end).
Proof.
  intros o c. subst o c.
  destruct (publish_cases w) as [Hc|[[f Hf]|[Hc Hnf]]].
  - rewrite (publish_fallback w Hc), Hc. simpl. split_and!; try done.
    + intros k Hk%list_elem_of_singleton. done.
    + apply list_elem_of_here.
    + intros v Hv%list_elem_of_singleton. by injection Hv.
    + intros _. eexists. split; [done|].
      intros k Hk. by apply lookup_insert_ne.
  - rewrite (publish_invoke w f Hf), Hf. cbv zeta.
    destruct (host f [implementors] w) as [v w1|e w1|]; simpl;
      (split_and!; try done;
       [ intros k; rewrite !elem_of_cons, elem_of_nil; by intros [->|[->|[]]]
       | apply list_elem_of_here
       | intros v'; apply not_elem_of_nil ]).
  - rewrite (publish_not_callable w Hc Hnf), Hc. simpl. split_and!; try done.
    + intros k. rewrite !elem_of_cons, elem_of_nil. by intros [->|[->|[]]].
    + apply list_elem_of_here.
    + intros v. apply not_elem_of_nil.
    + intros _. destruct (get_prop callback_slot w); try done.
      by destruct (Hnf f).
Qed.

(** C4, amended (when [publish] completes): a run completes normally
    exactly when the callback slot is falsy, or holds a function whose call
    with the Registry returns.  A truthy slot that is not a function makes
    the call expression throw a [TypeError]; what the callback throws, the
    run throws; and the run does not return when the callback does not. *)
Theorem publish_completes_iff (w : window) :
  let c := get_prop callback_slot w in
  let o := publish host w in
  (completion_of o = Normal ↔
   to_boolean c = false ∨
   ∃ f v w', c = VFun f ∧ host f [implementors] w = HReturn v w') ∧
  (to_boolean c = true → (∀ f, c ≠ VFun f) →
   completion_of o = Abrupt (NotCallable c)) ∧
  (∀ f e w', c = VFun f → host f [implementors] w = HThrow e w' →
   completion_of o = Abrupt (Raised e)) ∧
  (∀ f, c = VFun f → host f [implementors] w = HDiverge →
   completion_of o = NoReturn).
Proof.
  intros c o. subst c o. split_and!.
  - destruct (publish_cases w) as [Hc|[[f Hf]|[Hc Hnf]]].
    + rewrite (publish_fallback w Hc). simpl. split; auto.
    + rewrite (publish_invoke w f Hf), Hf. cbv zeta. split.
      * destruct (host f [implementors] w) as [v w1|e w1|] eqn:Hcall;
          simpl; try discriminate.
        intros _. right. by exists f, v, w1.
      * intros [Hfalse|(f' & v & w1 & [= <-] & Hcall)]; [discriminate|].
        by rewrite Hcall.
    + rewrite (publish_not_callable w Hc Hnf). simpl. split; [discriminate|].
      intros [Hfalse|(f & v & w1 & Hf & _)]; [congruence|].
      by destruct (Hnf f).
  - intros Hc Hnf. by rewrite (publish_not_callable w Hc Hnf).
  - intros f e w1 Hf Hcall. by rewrite (publish_invoke w f Hf), Hcall.
  - intros f Hf Hcall. by rewrite (publish_invoke w f Hf), Hcall.
Qed.

(** C8 (double invocation): two runs in a row.  While the callback slot is
    falsy both runs assign the pending slot, and the global object after
    the second is the one after the first: the pending slot holds the
    Registry.  With a callback installed that returns and is still
    installed afterwards, both runs call it with the Registry: two calls,
    and no assignment. *)
Theorem publish_twice_spec (w : window) :
  (callback_absent w →
   final_window (publish_twice host w) = final_window (publish host w) ∧
   final_prop pending_slot (publish_twice host w) = Some (Some implementors) ∧
   writes (trace (publish_twice host w)) =
     [(pending_slot, implementors); (pending_slot, implementors)] ∧
   calls (trace (publish_twice host w)) = []) ∧
  (∀ f v w1,
     w !! callback_slot = Some (VFun f) →
     host f [implementors] w = HReturn v w1 →
     w1 !! callback_slot = Some (VFun f) →
     calls (trace (publish_twice host w)) =
       [(f, [implementors]); (f, [implementors])] ∧
     writes (trace (publish_twice host w)) = []).
Proof.
  split.
  - intros Habsent. unfold publish_twice, bind.
    rewrite (publish_fallback w Habsent). cbv beta iota.
    assert (callback_absent (<[pending_slot := implementors]> w)) as Hstill.
    { unfold callback_absent, get_prop.
      rewrite lookup_insert_ne by (intros Heq; by apply slots_distinct).
      exact Habsent. }
    rewrite (publish_fallback _ Hstill). unfold final_prop. simpl.
    rewrite insert_insert_eq, lookup_insert_eq. done.
  - intros f v w1 Hf%get_prop_lookup Hcall Hf1%get_prop_lookup.
    unfold publish_twice, bind.
    rewrite (publish_invoke w f Hf), Hcall. cbv beta iota zeta.
    rewrite (publish_invoke w1 f Hf1). cbv zeta.
    by destruct (host f [implementors] w1).
Qed.

(** C9 (truthiness decides the branch): when the callback slot reads as
    one of the falsy values, [null], [false], [0] and the empty string among
    them, the run takes the else branch: it assigns the Registry to the
    pending slot and attempts no call.  When the slot reads as anything
    else the run assigns nothing and attempts the call, which is a call of
    the function in the slot or the [TypeError] for a slot that holds no
    function. *)
Theorem publish_branch_by_truthiness (w : window) :
  let c := get_prop callback_slot w in
  let o := publish host w in
  (c ∈ falsy_values →
   o = Done tt (<[pending_slot := implementors]> w)
         [EvGet callback_slot c; EvSet pending_slot implementors] ∧
   calls (trace o) = [] ∧
   ∀ v, completion_of o ≠ Abrupt (NotCallable v)) ∧
  (c ∉ falsy_values →
   writes (trace o) = [] ∧
   ((∃ f, c = VFun f ∧ calls (trace o) = [(f, [implementors])]) ∨
    completion_of o = Abrupt (NotCallable c))).
Proof.
  intros c o. subst c o. rewrite <- to_boolean_false_iff. split.
  - intros Hc. rewrite (publish_fallback w Hc). by split_and!.
  - intros Hc%not_false_is_true.
    destruct (publish_cases w) as [Hc'|[[f Hf]|[_ Hnf]]]; [congruence| |].
    + rewrite (publish_invoke w f Hf). cbv zeta.
      destruct (host f [implementors] w); simpl; (split; [done|]);
        left; by exists f.
    + rewrite (publish_not_callable w Hc Hnf). simpl. split; [done|by right].
Qed.

(** C10 (determinism): two runs from global objects that agree on the
    callback slot, the installed callback (if any) doing the same from
    both, do the same things in the same order, calls and their argument
    included, end the same way, and leave every property the same on which
    the initial objects agreed, the pending slot for one.  Runs from the
    same global object have the same outcome. *)
Theorem publish_deterministic (w1 w2 : window) :
  w1 !! callback_slot = w2 !! callback_slot →
  (∀ f, w1 !! callback_slot = Some (VFun f) →
        host f [implementors] w1 = host f [implementors] w2) →
  trace (publish host w1) = trace (publish host w2) ∧
  completion_of (publish host w1) = completion_of (publish host w2) ∧
  (∀ k, w1 !! k = w2 !! k →
        final_prop k (publish host w1) = final_prop k (publish host w2)) ∧
  (w1 = w2 → publish host w1 = publish host w2).
Proof.
  intros Hslot Hsame.
  assert (get_prop callback_slot w1 = get_prop callback_slot w2) as Hc.
  { unfold get_prop. by rewrite Hslot. }
  destruct (publish_cases w1) as [Hc1|[[f Hf]|[Hc1 Hnf]]].
  - assert (callback_absent w2) as Hc2 by (unfold callback_absent; congruence).
    rewrite (publish_fallback w1 Hc1), (publish_fallback w2 Hc2), Hc.
    unfold final_prop. simpl. split_and!; try done; [|by intros ->].
    intros k Hk. f_equal.
    destruct (decide (pending_slot = k)) as [<-|Hne].
    + by rewrite !lookup_insert_eq.
    + by rewrite !lookup_insert_ne.
  - assert (w1 !! callback_slot = Some (VFun f)) as Hlook.
    { unfold get_prop in Hf. destruct (w1 !! callback_slot); simpl in Hf;
        congruence. }
    rewrite (publish_invoke w1 f Hf), (publish_invoke w2 f) by congruence.
    rewrite (Hsame f Hlook). cbv zeta.
    by split_and!.
  - rewrite (publish_not_callable w1 Hc1 Hnf).
    rewrite (publish_not_callable w2) by (intros; congruence).
    rewrite Hc. unfold final_prop. simpl. split_and!; try done.
    + intros k Hk. by f_equal.
    + by intros ->.
Qed.

End PublishFacts.

(** ** The contract at concrete pages *)

Lemma publish_callback_present_witness :
  demo_page (VFun 0) !! callback_slot = Some (VFun 0) ∧
  calls (trace (publish demo_host (demo_page (VFun 0)))) =
    [(0, [implementors])] ∧
  writes (trace (publish demo_host (demo_page (VFun 0)))) = [] ∧
  final_prop pending_slot (publish demo_host (demo_page (VFun 0))) =
    Some (demo_page (VFun 0) !! pending_slot).
Proof.
  assert (demo_page (VFun 0) !! callback_slot = Some (VFun 0)) as Hslot
    by (vm_compute; reflexivity).
  destruct (publish_callback_present demo_host (demo_page (VFun 0)) 0 Hslot)
    as (_ & Hcalls & Hwrites & Hfinal & _).
  split_and!; [exact Hslot | exact Hcalls | exact Hwrites |].
  unfold final_prop. rewrite Hfinal. vm_compute. reflexivity.
Defined.

Lemma publish_callback_absent_witness :
  callback_absent stale_page ∧
  ∃ w',
    publish demo_host stale_page =
      Done tt w' [EvGet callback_slot (get_prop callback_slot stale_page);
                  EvSet pending_slot implementors] ∧
    w' !! callback_slot = stale_page !! callback_slot ∧
    w' !! pending_slot = Some implementors ∧
    writes (trace (publish demo_host stale_page)) =
      [(pending_slot, implementors)] ∧
    calls (trace (publish demo_host stale_page)) = [].
Proof.
  assert (callback_absent stale_page) as Habsent by (vm_compute; reflexivity).
  split; [exact Habsent|].
  exact (publish_callback_absent demo_host stale_page Habsent).
Defined.

(** C3, as stated, fails: on a page with a callback installed the run
    assigns neither of the two slots, so it does not assign exactly one. *)
Lemma publish_call_branch_writes_nothing :
  demo_page (VFun 0) !! callback_slot = Some (VFun 0) ∧
  writes (trace (publish demo_host (demo_page (VFun 0)))) = [] ∧
  length (writes (trace (publish demo_host (demo_page (VFun 0))))) ≠ 1.
Proof. split_and!; vm_compute; [reflexivity | reflexivity | discriminate]. Qed.

Lemma publish_frame_witness :
  writes (trace (publish demo_host stale_page)) =
    [(pending_slot, implementors)] ∧
  (∃ w', final_window (publish demo_host stale_page) = Some w' ∧
         ∀ k, k ≠ pending_slot → w' !! k = stale_page !! k) ∧
  writes (trace (publish demo_host (demo_page (VFun 0)))) = [].
Proof.
  destruct (publish_frame demo_host stale_page)
    as (_ & _ & _ & Hwrites & Helse & _).
  destruct (publish_frame demo_host (demo_page (VFun 0)))
    as (_ & _ & _ & Hwrites' & _).
  split_and!.
  - exact Hwrites.
  - apply Helse. vm_compute. reflexivity.
  - exact Hwrites'.
Defined.

(** C4, as stated, fails: on a page whose callback slot holds [true] the
    run throws the [TypeError] of calling a non-function; with a callback
    that throws, the run throws; with one that does not return, neither does
    the run. *)
Lemma publish_can_fail :
  completion_of (publish demo_host (page_with (VBool true))) =
    Abrupt (NotCallable (VBool true)) ∧
  completion_of (publish demo_host (page_with (VFun 1))) =
    Abrupt (Raised (VStr "boom")) ∧
  completion_of (publish demo_host (page_with (VFun 2))) = NoReturn.
Proof. split_and!; vm_compute; reflexivity. Qed.

Lemma publish_completes_iff_witness :
  completion_of (publish demo_host (page_with (VFun 0))) = Normal ∧
  completion_of (publish demo_host stale_page) = Normal.
Proof.
  split.
  - apply (proj1 (publish_completes_iff demo_host (page_with (VFun 0)))).
    right. eexists 0, _, _. split; reflexivity.
  - apply (proj1 (publish_completes_iff demo_host stale_page)).
    left. vm_compute. reflexivity.
Defined.

Lemma publish_twice_spec_witness :
  final_prop pending_slot (publish_twice demo_host stale_page) =
    Some (Some implementors) ∧
  calls (trace (publish_twice demo_host (page_with (VFun 0)))) =
    [(0, [implementors]); (0, [implementors])].
Proof.
  split.
  - apply (proj1 (publish_twice_spec demo_host stale_page)).
    vm_compute. reflexivity.
  - eapply (proj2 (publish_twice_spec demo_host (page_with (VFun 0))) 0).
    + vm_compute. reflexivity.
    + reflexivity.
    + vm_compute. reflexivity.
Defined.

Lemma publish_branch_by_truthiness_witness :
  Forall (λ c, get_prop callback_slot (page_with c) ∈ falsy_values ∧
               calls (trace (publish demo_host (page_with c))) = [])
    [VNull; VBool false; VNum (S754_zero false); VStr ""].
Proof.
  assert (∀ c, to_boolean (get_prop callback_slot (page_with c)) = false →
               get_prop callback_slot (page_with c) ∈ falsy_values ∧
               calls (trace (publish demo_host (page_with c))) = [])
    as Hfalsy.
  { intros c Hc%to_boolean_false_iff. split; [exact Hc|].
    apply (proj1 (publish_branch_by_truthiness demo_host (page_with c)) Hc). }
  apply Forall_cons; split; [apply Hfalsy; reflexivity|].
  apply Forall_cons; split; [apply Hfalsy; reflexivity|].
  apply Forall_cons; split; [apply Hfalsy; reflexivity|].
  apply Forall_cons; split; [apply Hfalsy; reflexivity|].
  apply Forall_nil_2.
Defined.

Lemma publish_deterministic_witness :
  trace (publish demo_host (demo_page (VFun 2))) =
    trace (publish demo_host (page_with (VFun 2))) ∧
  completion_of (publish demo_host (demo_page (VFun 2))) =
    completion_of (publish demo_host (page_with (VFun 2))) ∧
  final_prop callback_slot (publish demo_host stale_page) =
    final_prop callback_slot (publish demo_host ∅).
Proof.
  split_and!.
  - apply (publish_deterministic demo_host (demo_page (VFun 2))
             (page_with (VFun 2))).
    + vm_compute. reflexivity.
    + intros f Hf. vm_compute in Hf. injection Hf as <-. reflexivity.
  - apply (publish_deterministic demo_host (demo_page (VFun 2))
             (page_with (VFun 2))).
    + vm_compute. reflexivity.
    + intros f Hf. vm_compute in Hf. injection Hf as <-. reflexivity.
  - apply (publish_deterministic demo_host stale_page ∅).
    + vm_compute. reflexivity.
    + intros f Hf. vm_compute in Hf. discriminate.
    + vm_compute. reflexivity.
Defined.

(** ** Beyond the contract: assignment statements *)






(** ** Beyond the contract: the Registry *)

Lemma prefix_starts_with (p s : string) :
  String.prefix p s = true → starts_with p s.
Proof. intros H. by apply String.prefix_correct. Qed.

Lemma contains_occurs_in (p s : string) : contains p s = true → occurs_in p s.
Proof.
  unfold contains, occurs_in.
  destruct (String.index 0 p s) as [n|] eqn:Hidx; [|discriminate].
  intros _. exists n. by apply (String.index_correct1 0).
Qed.

Lemma filed_under_ok_spec (k : string) (r : value) :
  filed_under_ok k r = true → filed_under k r.
Proof.
  unfold filed_under_ok, filed_under.
  destruct r as [| | | | | | | |ps|]; try discriminate.
  destruct (obj_get "types" ps)
    as [[| | | | | | |[|[| | | | |ty| | | |] [|]]| |]|] eqn:Etys;
    try discriminate.
  intros Hpre%prefix_starts_with. by exists ps, ty.
Qed.

Lemma impl_of_FromStr_ok_spec (r : value) :
  impl_of_FromStr_ok r = true → impl_of_FromStr r.
Proof.
  unfold impl_of_FromStr_ok, impl_of_FromStr.
  destruct r as [| | | | | | | |ps|]; try discriminate.
  destruct (obj_get "text" ps) as [[| | | | |t| | | |]|] eqn:Etext;
    try discriminate.
  intros [Hpre%prefix_starts_with Hocc%contains_occurs_in]%andb_prop.
  by exists ps, t.
Qed.

Lemma assignments_filed :
  Forall (λ kv, Forall (filed_under kv.1) (records_of kv.2)) assignments.
Proof.
  apply (forallb_Forall_imp
           (λ kv, forallb (filed_under_ok kv.1) (records_of kv.2))).
  - intros kv. apply forallb_Forall_imp, filed_under_ok_spec.
  - vm_compute. reflexivity.
Qed.

Lemma assignments_impls :
  Forall (λ kv, Forall impl_of_FromStr (records_of kv.2)) assignments.
Proof.
  apply (forallb_Forall_imp
           (λ kv, forallb impl_of_FromStr_ok (records_of kv.2))).
  - intros kv. apply forallb_Forall_imp, impl_of_FromStr_ok_spec.
  - vm_compute. reflexivity.
Qed.

(** X7 (records are filed under their crate): every record found under a
    namespace key names exactly one type, and the path of that type starts
    with the key followed by two colons. *)
Theorem registry_filed_under_key (k : string) (rs : list value) (r : value) :
  obj_get k implementors_obj = Some (VArr rs) → r ∈ rs → filed_under k r.
Proof.
  rewrite implementors_obj_eq. intros Hin%obj_get_elem_of Hr.
  pose proof assignments_filed as Hall.
  rewrite Forall_forall in Hall. specialize (Hall (k, VArr rs) Hin).
  cbn [records_of fst snd] in Hall.
  rewrite Forall_forall in Hall. exact (Hall r Hr).
Qed.

Lemma registry_filed_under_key_witness :
  ∃ rs r, obj_get "chrono" implementors_obj = Some (VArr rs) ∧
          rs !! 1%nat = Some r ∧ filed_under "chrono" r.
Proof.
  eexists _, _. split; [vm_compute; reflexivity|].
  split; [reflexivity|].
  eapply (registry_filed_under_key "chrono").
  - vm_compute. reflexivity.
  - apply list_elem_of_further, list_elem_of_here.
Defined.

(** X8 (every record implements the trait of the page): the [text] of every
    record starts with [impl] and contains the link to
    [core::str::traits::FromStr] followed by [for]. *)
Theorem registry_impls_FromStr (k : string) (rs : list value) (r : value) :
  obj_get k implementors_obj = Some (VArr rs) → r ∈ rs → impl_of_FromStr r.
Proof.
  rewrite implementors_obj_eq. intros Hin%obj_get_elem_of Hr.
  pose proof assignments_impls as Hall.
  rewrite Forall_forall in Hall. specialize (Hall (k, VArr rs) Hin).
  cbn [records_of snd] in Hall.
  rewrite Forall_forall in Hall. exact (Hall r Hr).
Qed.

Lemma registry_impls_FromStr_witness :
  ∃ rs r, obj_get "arrayvec" implementors_obj = Some (VArr rs) ∧
          rs !! 0%nat = Some r ∧ impl_of_FromStr r.
Proof.
  eexists _, _. split; [vm_compute; reflexivity|].
  split; [reflexivity|].
  eapply (registry_impls_FromStr "arrayvec").
  - vm_compute. reflexivity.
  - apply list_elem_of_here.
Defined.

(** X9 (keys in ascending order): the property names of the Registry, in
    the order the object lists them, are strictly ascending: each is below
    every later one in the order of character codes. *)
Theorem registry_keys_ascending :
  StronglySorted (λ a b, String.ltb a b = true) (obj_keys implementors_obj).
Proof.
  rewrite implementors_obj_eq.
  apply (bool_decide_unpack _). vm_compute. exact I.
Qed.

(** ** Beyond the contract: line 43 *)

(** X2 (what a run does is decided by the callback slot alone): runs that
    read the same value in the callback slot log the same reads, writes
    and calls, whatever the other properties of the global object hold and
    whatever the host's functions do. *)
Theorem publish_trace_slot_only (h1 h2 : host_behaviour) (w1 w2 : window) :
  get_prop callback_slot w1 = get_prop callback_slot w2 →
  trace (publish h1 w1) = trace (publish h2 w2).
Proof.
  intros Hc.
  destruct (publish_cases w1) as [Hc1|[[f Hf]|[Hc1 Hnf]]].
  - rewrite (publish_fallback h1 w1 Hc1).
    rewrite (publish_fallback h2 w2) by congruence.
    simpl. by rewrite Hc.
  - rewrite (publish_invoke h1 w1 f Hf).
    rewrite (publish_invoke h2 w2 f) by congruence.
    cbv zeta.
    by destruct (h1 f [implementors] w1), (h2 f [implementors] w2).
  - rewrite (publish_not_callable h1 w1 Hc1 Hnf).
    rewrite (publish_not_callable h2 w2) by (intros; congruence).
    simpl. by rewrite Hc.
Qed.

Lemma publish_trace_slot_only_witness :
  trace (publish demo_host (demo_page (VFun 1))) =
    trace (publish quiet_host (page_with (VFun 1))).
Proof.
  apply (publish_trace_slot_only demo_host quiet_host).
  vm_compute. reflexivity.
Defined.

Section PublishMore.

Variable host : host_behaviour.

Local Opaque implementors.

(** X1 (one delivery, of the whole Registry): a run hands the Registry over
    at most once, by a call or by an assignment and never by both; what it
    passes or stores is the Registry and nothing else; and it hands nothing
    over exactly when the call expression throws the [TypeError] of a slot
    that holds no function. *)
Theorem publish_delivers_once (w : window) :
  let o := publish host w in
  (∀ f args, (f, args) ∈ calls (trace o) →
     get_prop callback_slot w = VFun f ∧ args = [implementors]) ∧
  (∀ k v, (k, v) ∈ writes (trace o) → k = pending_slot ∧ v = implementors) ∧
  length (calls (trace o)) + length (writes (trace o)) ≤ 1 ∧
  (length (calls (trace o)) + length (writes (trace o)) = 0 ↔
   ∃ c, completion_of o = Abrupt (NotCallable c)).
Proof.
  intros o. subst o.
  destruct (publish_cases w) as [Hc|[[f Hf]|[Hc Hnf]]].
  - rewrite (publish_fallback host w Hc). simpl. split_and!.
    + intros f args Hin. by apply elem_of_nil in Hin.
    + intros k v Hin%list_elem_of_singleton. by injection Hin.
    + lia.
    + split; [discriminate | by intros [c Hcompl]].
  - rewrite (publish_invoke host w f Hf). cbv zeta.
    destruct (host f [implementors] w) as [v w1|e w1|]; simpl;
      (split_and!;
       [ intros f' args Hin%list_elem_of_singleton; injection Hin as -> ->;
         done
       | intros k v' Hin; by apply elem_of_nil in Hin
       | lia
       | split; [discriminate | by intros [c Hcompl]] ]).
  - rewrite (publish_not_callable host w Hc Hnf). simpl. split_and!.
    + intros f args Hin. by apply elem_of_nil in Hin.
    + intros k v Hin. by apply elem_of_nil in Hin.
    + lia.
    + split; [eauto | done].
Qed.

(** X3 (the pending slot is overwritten unread): in the else branch the
    outcome does not depend on what the pending slot held: stale data, or
    no property at all, gives the same outcome as any other content. *)
Theorem publish_overwrites_pending (w : window) (stale : value) :
  callback_absent w →
  publish host (<[pending_slot := stale]> w) = publish host w ∧
  publish host (delete pending_slot w) = publish host w.
Proof.
  intros Habsent.
  assert (get_prop callback_slot (<[pending_slot := stale]> w) =
          get_prop callback_slot w) as Hins.
  { unfold get_prop.
    by rewrite lookup_insert_ne by (intros Heq; by apply slots_distinct). }
  assert (get_prop callback_slot (delete pending_slot w) =
          get_prop callback_slot w) as Hdel.
  { unfold get_prop.
    by rewrite lookup_delete_ne by (intros Heq; by apply slots_distinct). }
  rewrite (publish_fallback host w Habsent).
  rewrite !publish_fallback by (unfold callback_absent; congruence).
  rewrite Hins, Hdel, insert_insert_eq, insert_delete_eq. done.
Qed.

(** X4 (a callback installed after the first run): after a run without
    callback, once the page has set the callback slot to a function, a
    second run calls that function once with the Registry and assigns
    nothing; the pending slot still holds the Registry of the first run when
    the function is entered. *)
Theorem publish_then_late_callback (w : window) (f : fn_id) :
  callback_absent w →
  ∃ w1 t1,
    publish host w = Done tt w1 t1 ∧
    get_prop pending_slot (<[callback_slot := VFun f]> w1) = implementors ∧
    calls (trace (publish host (<[callback_slot := VFun f]> w1))) =
      [(f, [implementors])] ∧
    writes (trace (publish host (<[callback_slot := VFun f]> w1))) = [] ∧
    final_window (publish host (<[callback_slot := VFun f]> w1)) =
      host_window (host f [implementors] (<[callback_slot := VFun f]> w1)).
Proof.
  intros Habsent. eexists _, _. split; [by apply publish_fallback|].
  set (w2 := <[callback_slot := VFun f]> (<[pending_slot := implementors]> w)).
  assert (get_prop callback_slot w2 = VFun f) as Hf.
  { unfold get_prop, w2. by rewrite lookup_insert_eq. }
  split.
  - unfold get_prop, w2.
    rewrite lookup_insert_ne by apply slots_distinct.
    by rewrite lookup_insert_eq.
  - rewrite (publish_invoke host w2 f Hf). cbv zeta.
    by destruct (host f [implementors] w2).
Qed.

(** X5 (a callback that uninstalls itself): when the function in the
    callback slot returns leaving the slot falsy, a second run in sequence
    takes the else branch: over the two runs the function is called once
    and the Registry is also stored in the pending slot. *)
Theorem publish_twice_one_shot (w w1 : window) (f : fn_id) (v : value) :
  w !! callback_slot = Some (VFun f) →
  host f [implementors] w = HReturn v w1 →
  callback_absent w1 →
  calls (trace (publish_twice host w)) = [(f, [implementors])] ∧
  writes (trace (publish_twice host w)) = [(pending_slot, implementors)] ∧
  final_window (publish_twice host w) =
    Some (<[pending_slot := implementors]> w1).
Proof.
  intros Hf%get_prop_lookup Hcall Habsent. unfold publish_twice, bind.
  rewrite (publish_invoke host w f Hf), Hcall. cbv beta iota zeta.
  by rewrite (publish_fallback host w1 Habsent).
Qed.

End PublishMore.

Lemma publish_overwrites_pending_witness :
  publish demo_host stale_page = publish demo_host ∅.
Proof.
  change stale_page with (<[pending_slot := VStr "stale"]> (∅ : window)).
  apply (publish_overwrites_pending demo_host ∅ (VStr "stale")).
  vm_compute. reflexivity.
Defined.

Lemma publish_then_late_callback_witness :
  ∃ w1 t1,
    publish demo_host stale_page = Done tt w1 t1 ∧
    get_prop pending_slot (<[callback_slot := VFun 0]> w1) = implementors ∧
    calls (trace (publish demo_host (<[callback_slot := VFun 0]> w1))) =
      [(0, [implementors])] ∧
    writes (trace (publish demo_host (<[callback_slot := VFun 0]> w1))) = [] ∧
    final_window (publish demo_host (<[callback_slot := VFun 0]> w1)) =
      host_window
        (demo_host 0 [implementors] (<[callback_slot := VFun 0]> w1)).
Proof.
  apply (publish_then_late_callback demo_host stale_page 0).
  vm_compute. reflexivity.
Defined.

Lemma publish_twice_one_shot_witness :
  calls (trace (publish_twice demo_host (demo_page (VFun 3)))) =
    [(3, [implementors])] ∧
  writes (trace (publish_twice demo_host (demo_page (VFun 3)))) =
    [(pending_slot, implementors)] ∧
  final_window (publish_twice demo_host (demo_page (VFun 3))) =
    Some (<[pending_slot := implementors]>
            (delete callback_slot (demo_page (VFun 3)))).
Proof.
  apply (publish_twice_one_shot demo_host (demo_page (VFun 3))
           (delete callback_slot (demo_page (VFun 3))) 3 VUndefined).
  - vm_compute. reflexivity.
  - reflexivity.
  - vm_compute. reflexivity.
Defined.
